(** * sphinxcontrib-trio: the option sniffer, the option merge, the signature
      prefix, the docstring metadata splitter, the field filter and the
      option lines of the documenters

A shallow embedding of [src/sphinxcontrib_trio/__init__.py].

Conventions of the embedding:
- a Python [str] is a [string]; every [ascii] stands for the code point of
  the same number (so the model covers code points below 256, which
  include U+00A0 NO-BREAK SPACE);
- a Python [set] of option names is a [gset string], an option [dict] is a
  [gmap string pyval];
- Python objects live in a heap and are named by references, so that the
  [__wrapped__] / [__func__] links of [sniff_options] may form any graph;
  the [while True] loop is run with fuel, one unit per visited object;
- an exception is a [Raise] result;
- functions of Sphinx and docutils that the module only calls
  ([prepare_docstring], the compiled [field_marker] pattern, the
  superclass [handle_signature]) are Section variables where a function
  of the module uses them. *)

From Stdlib Require Import Ascii String List Bool Arith Lia.
From stdpp Require Import base gmap sets list strings.

#[local] Set Warnings "-clear-no-such-hyp".

Local Open Scope string_scope.

(* ================================================================== *)
(** * Part I. Definitions                                              *)
(* ================================================================== *)

(** ** Python values, exceptions and [str] methods *)

(** The value of a directive option: [None] (a flag) or a [str]. *)
Inductive pyval : Type :=
| PyNone
| PyStr (s : string).

#[global] Instance pyval_eq_dec : EqDecision pyval.
Proof. solve_decision. Defined.

Inductive exn : Type :=
| AttributeError.

(** The outcome of a call that may raise. *)
Inductive result (A : Type) : Type :=
| Ok (a : A)
| Raise (e : exn).
Arguments Ok {A} a.
Arguments Raise {A} e.

Definition bind {A B : Type} (r : result A) (k : A → result B) : result B :=
  match r with
  | Ok a => k a
  | Raise e => Raise e
  end.

Notation "x ←! r ; k" := (bind r (λ x, k))
  (at level 100, r at next level, right associativity).

Module PyStr.

(** [c.isspace()], for the code points below 256. *)
Definition isspace (c : ascii) : bool :=
  let n := nat_of_ascii c in
  (((9 <=? n) && (n <=? 13)) || ((28 <=? n) && (n <=? 32))
   || (n =? 133) || (n =? 160))%nat.

(** [s.lstrip()] *)
Fixpoint lstrip (s : string) : string :=
  match s with
  | String c s' => if isspace c then lstrip s' else s
  | EmptyString => EmptyString
  end.

(** [s.rstrip()] *)
Definition rstrip (s : string) : string :=
  String.rev (lstrip (String.rev s)).

(** [s.strip()] *)
Definition strip (s : string) : string := rstrip (lstrip s).

(** [s.startswith(p)] *)
Definition startswith (p s : string) : bool := String.prefix p s.

(** [s[n:]] *)
Fixpoint slice_from (n : nat) (s : string) : string :=
  match n, s with
  | S n', String _ s' => slice_from n' s'
  | _, _ => s
  end.

(** [s[:n]] *)
Fixpoint slice_to (n : nat) (s : string) : string :=
  match n, s with
  | S n', String c s' => String c (slice_to n' s')
  | _, _ => EmptyString
  end.

(** [s.split(sep, 1)[0]] for a separator of one character. *)
Fixpoint split_head (sep : ascii) (s : string) : string :=
  match s with
  | String c s' => if Ascii.eqb c sep then EmptyString
                   else String c (split_head sep s')
  | EmptyString => EmptyString
  end.

(** The text of one line feed, U+000A. *)
Definition NEWLINE : string := String (ascii_of_nat 10) EmptyString.

(** [sep.join(l)] *)
Definition join (sep : string) (l : list string) : string :=
  String.concat sep l.

(** [sub in s] *)
Fixpoint has_substring (sub s : string) : bool :=
  String.prefix sub s
  || match s with
     | String _ s' => has_substring sub s'
     | EmptyString => false
     end.

(** The truth value of a [str]: [not s] is [negb (truthy s)]. *)
Definition truthy (s : string) : bool :=
  match s with
  | EmptyString => false
  | String _ _ => true
  end.

(** [v.strip()] on an option value; [None] has no such method. *)
Definition strip_val (v : pyval) : result string :=
  match v with
  | PyStr s => Ok (strip s)
  | PyNone => Raise AttributeError
  end.

(** The text [format] substitutes for a value. *)
Definition str_of (v : pyval) : string :=
  match v with
  | PyStr s => s
  | PyNone => "None"
  end.

End PyStr.

(** ** Autodoc: [sniff_options] *)

Module Sniff.

(** A reference to a Python object (its identity). *)
Definition ref := nat.

(** What [sniff_options] can observe of one object. *)
Record PyObj : Type := mkPyObj {
  (** truth value of [getattr(obj, "__isabstractmethod__", False)] *)
  isabstractmethod : bool;
  (** [isinstance(obj, classmethod)] *)
  is_classmethod : bool;
  (** [isinstance(obj, staticmethod)] *)
  is_staticmethod : bool;
  (** [inspect.iscoroutinefunction(obj)] *)
  iscoroutinefunction : bool;
  (** [inspect.isgeneratorfunction(obj)] *)
  isgeneratorfunction : bool;
  (** [isasyncgenfunction(obj)] *)
  isasyncgenfunction : bool;
  (** [getattr(obj, "__code__", None)]: the identity of the code object *)
  code : option nat;
  (** truth value of [getattr(obj, "__returns_contextmanager__", False)] *)
  returns_contextmanager : bool;
  (** truth value of [getattr(obj, "__returns_acontextmanager__", False)] *)
  returns_acontextmanager : bool;
  (** [obj.__wrapped__], when [hasattr(obj, "__wrapped__")] *)
  wrapped : option ref;
  (** [obj.__func__], when [hasattr(obj, "__func__")] *)
  func : option ref
}.

Definition EXCLUSIVE_OPTIONS : gset string :=
  {[ "async"; "for"; "async-for"; "with"; "async-with" ]}.

(** [options.add(x)] *)
Definition add (x : string) (options : gset string) : gset string :=
  options ∪ {[ x ]}.

(** [if c: options.add(x)] *)
Definition add_if (c : bool) (x : string) (options : gset string) : gset string :=
  if c then add x options else options.

(** [getattr(obj, "__code__", None) in CODES] *)
Definition code_in (o : PyObj) (CODES : gset nat) : bool :=
  match code o with
  | Some c => bool_decide (c ∈ CODES)
  | None => false
  end.

Section Loop.

(** The module globals [CM_CODES] and [ACM_CODES], filled at import time. *)
Variables CM_CODES ACM_CODES : gset nat.

(** The three tests at the top of the loop body. *)
Definition sniff_independent (o : PyObj) (options : gset string) : gset string :=
  let options := add_if (isabstractmethod o) "abstractmethod" options in
  let options := add_if (is_classmethod o) "classmethod" options in
  let options := add_if (is_staticmethod o) "staticmethod" options in
  options.

(** The body of [if not (options & EXCLUSIVE_OPTIONS):]. *)
Definition sniff_exclusive_block (o : PyObj) (options : gset string) : gset string :=
  let options :=
    if iscoroutinefunction o then add "async" options
    else if isgeneratorfunction o then add "for" options
    else options in
  let options := add_if (isasyncgenfunction o) "async-for" options in
  let options := add_if (code_in o CM_CODES) "with" options in
  let options := add_if (returns_contextmanager o) "with" options in
  let options := add_if (code_in o ACM_CODES) "async-with" options in
  let options := add_if (returns_acontextmanager o) "async-with" options in
  options.

(** One pass of the loop body, up to the choice of the next object. *)
Definition sniff_body (o : PyObj) (options : gset string) : gset string :=
  let options := sniff_independent o options in
  if decide (options ∩ EXCLUSIVE_OPTIONS = ∅)
  then sniff_exclusive_block o options
  else options.

(** The object the loop moves to: [__wrapped__] first, else [__func__]. *)
Definition next_obj (o : PyObj) : option ref :=
  match wrapped o with
  | Some w => Some w
  | None => func o
  end.

Variable heap : ref → PyObj.

(** The [while True] loop; [None] when the fuel runs out before [break]. *)
Fixpoint sniff_loop (fuel : nat) (obj : ref) (options : gset string)
  : option (gset string) :=
  match fuel with
  | O => None
  | S fuel' =>
      let options := sniff_body (heap obj) options in
      match next_obj (heap obj) with
      | Some obj' => sniff_loop fuel' obj' options
      | None => Some options
      end
  end.

Definition sniff_options (fuel : nat) (obj : ref) : option (gset string) :=
  sniff_loop fuel obj ∅.

(** [wrapped_chain obj l]: the loop started at [obj] visits exactly the
    objects [l], in this order, and then breaks. *)
Inductive wrapped_chain : ref → list ref → Prop :=
| chain_last obj :
    next_obj (heap obj) = None → wrapped_chain obj [obj]
| chain_link obj obj' l :
    next_obj (heap obj) = Some obj' →
    wrapped_chain obj' l →
    wrapped_chain obj (obj :: l).

(** The tags the sniffer reports outside the exclusive group. *)
Definition INDEPENDENT_OPTIONS : gset string :=
  {[ "abstractmethod"; "staticmethod"; "classmethod" ]}.

(** What is detected at one layer, looked at alone: the non-exclusive tags. *)
Definition independent_tags (o : PyObj) : gset string :=
  (if isabstractmethod o then {[ "abstractmethod" ]} else ∅)
  ∪ (if is_classmethod o then {[ "classmethod" ]} else ∅)
  ∪ (if is_staticmethod o then {[ "staticmethod" ]} else ∅).

(** What is detected at one layer, looked at alone: the exclusive tags. *)
Definition exclusive_tags (o : PyObj) : gset string :=
  (if iscoroutinefunction o then {[ "async" ]}
   else if isgeneratorfunction o then {[ "for" ]} else ∅)
  ∪ (if isasyncgenfunction o then {[ "async-for" ]} else ∅)
  ∪ (if code_in o CM_CODES || returns_contextmanager o then {[ "with" ]} else ∅)
  ∪ (if code_in o ACM_CODES || returns_acontextmanager o
     then {[ "async-with" ]} else ∅).

(** The union, over the layers of a chain, of the non-exclusive tags. *)
Fixpoint union_independent (l : list ref) : gset string :=
  match l with
  | [] => ∅
  | obj :: l' => independent_tags (heap obj) ∪ union_independent l'
  end.

(** The exclusive tags of the first layer of a chain that has any. *)
Fixpoint first_exclusive (l : list ref) : gset string :=
  match l with
  | [] => ∅
  | obj :: l' =>
      if decide (exclusive_tags (heap obj) = ∅) then first_exclusive l'
      else exclusive_tags (heap obj)
  end.

End Loop.

End Sniff.


(** ** Autodoc: [update_with_sniffed_options] *)

Module Merge.

Import Sniff.

(** [k in d] *)
Definition contains (k : string) (d : gmap string pyval) : bool :=
  bool_decide (is_Some (d !! k)).

(** [d.setdefault(k, v)], as its effect on [d]. *)
Definition setdefault (k : string) (v : pyval) (d : gmap string pyval)
  : gmap string pyval :=
  match d !! k with
  | Some _ => d
  | None => <[ k := v ]> d
  end.

(** [for attr in sniffed: option_dict.setdefault(attr, None)], the
    attributes taken in the order the set yields them. *)
Fixpoint setdefault_each (attrs : list string) (option_dict : gmap string pyval)
  : gmap string pyval :=
  match attrs with
  | [] => option_dict
  | attr :: attrs' => setdefault_each attrs' (setdefault attr PyNone option_dict)
  end.

Definition merge_sniffed (sniffed : gset string) (option_dict : gmap string pyval)
  : gmap string pyval :=
  setdefault_each (elements sniffed) option_dict.

(** The function returns nothing and mutates [option_dict]; the model
    returns the dictionary after the call, [None] when the sniffer runs
    out of fuel. *)
Definition update_with_sniffed_options (CM_CODES ACM_CODES : gset nat)
    (heap : ref → PyObj) (fuel : nat) (obj : ref)
    (option_dict : gmap string pyval) : option (gmap string pyval) :=
  if contains "no-auto-options" option_dict then Some option_dict
  else
    match sniff_options CM_CODES ACM_CODES heap fuel obj with
    | Some sniffed => Some (merge_sniffed sniffed option_dict)
    | None => None
    end.

End Merge.

(** ** The directives: [ExtendedCallableMixin] *)

Module Render.

Import Merge.

(** The children of a signature node that matter here. *)
Inductive node : Type :=
| desc_addname (rawsource text : string)
| desc_annotation (rawsource text : string)
| host_node (text : string).

(** U+00A0 NO-BREAK SPACE *)
Definition NBSP : string := String (ascii_of_nat 160) EmptyString.

(** [self.options.get(k, "")] *)
Definition get_or_empty (k : string) (options : gmap string pyval) : pyval :=
  default (PyStr "") (options !! k).

(** One round of the loop over [("for", "for"), ("async-for", "async for")]. *)
Definition prefix_for (options : gmap string pyval) (ret : string)
    (for_type render : string) : result string :=
  if contains for_type options then
    name ←! PyStr.strip_val (get_or_empty for_type options);
    let name := if PyStr.truthy name then PyStr.str_of (get_or_empty for_type options)
                else "..." in
    Ok (ret ++ (render ++ " " ++ name ++ " in "))
  else Ok ret.

Definition _get_signature_prefix (options : gmap string pyval) (objtype : string)
  : result string :=
  let ret := "" in
  let ret := if contains "abstractmethod" options
             then ret ++ "abstractmethod " else ret in
  let ret := if contains "staticmethod" options || String.eqb objtype "staticmethod"
             then ret ++ "staticmethod " else ret in
  let ret := if contains "classmethod" options || String.eqb objtype "classmethod"
             then ret ++ "classmethod " else ret in
  let ret := if contains "with" options then ret ++ "with " else ret in
  let ret := if contains "async-with" options then ret ++ "async with " else ret in
  ret ←! prefix_for options ret "for" "for";
  ret ←! prefix_for options ret "async-for" "async for";
  let ret := if contains "async" options then ret ++ "await " else ret in
  Ok ret.

(** ["decorator" in self.options or self.objtype in ["decorator", "decoratormethod"]] *)
Definition is_decorator (options : gmap string pyval) (objtype : string) : bool :=
  contains "decorator" options
  || String.eqb objtype "decorator" || String.eqb objtype "decoratormethod".


(** One round of the loop over [["with", "async-with"]]. *)
Definition suffix_for (options : gmap string pyval) (signode : list node)
    (optname : string) : result (list node) :=
  v ←! PyStr.strip_val (get_or_empty optname options);
  if PyStr.truthy v then
    let s := NBSP ++ "as " ++ PyStr.str_of (get_or_empty optname options) in
    Ok (signode ++ [desc_annotation s s])%list
  else Ok signode.

Section HandleSignature.

(** The type of what the superclass method returns. *)
Variable ret_t : Type.

(** [super().handle_signature(sig, signode)]: its return value and the
    children of [signode] after the call. *)
Variable super_handle_signature :
  string → list node → result (ret_t * list node).

Definition handle_signature (options : gmap string pyval) (objtype : string)
    (sig : string) (signode : list node) : result (ret_t * list node) :=
  r ←! super_handle_signature sig signode;
  let '(ret, signode) := r in
  let signode := if is_decorator options objtype
                 then desc_addname "@" "@" :: signode else signode in
  prefix ←! _get_signature_prefix options objtype;
  let signode := if PyStr.truthy prefix
                 then desc_annotation prefix prefix :: signode else signode in
  signode ←! suffix_for options signode "with";
  signode ←! suffix_for options signode "async-with";
  Ok (ret, signode).

End HandleSignature.

(** The value of option [k], when the option is there, is a [str]: what
    the option parser gives for a valued option. *)
Definition str_valued (k : string) (options : gmap string pyval) : Prop :=
  options !! k ≠ Some PyNone.

(** The name a [for] or [async for] clause shows: the value of the option
    as given, or an ellipsis when it is blank. *)
Definition bound_name (k : string) (options : gmap string pyval) : string :=
  match get_or_empty k options with
  | PyStr s => if PyStr.truthy (PyStr.strip s) then s else "..."
  | PyNone => "..."
  end.

(** The words of the prefix, tag by tag, in the order abstractmethod,
    staticmethod, classmethod, with, async with, for ... in,
    async for ... in, await; a tag that is not there gives the empty word. *)
Definition prefix_words (options : gmap string pyval) (objtype : string)
  : list string :=
  [ if contains "abstractmethod" options then "abstractmethod " else "";
    if contains "staticmethod" options || String.eqb objtype "staticmethod"
    then "staticmethod " else "";
    if contains "classmethod" options || String.eqb objtype "classmethod"
    then "classmethod " else "";
    if contains "with" options then "with " else "";
    if contains "async-with" options then "async with " else "";
    if contains "for" options
    then "for " ++ bound_name "for" options ++ " in " else "";
    if contains "async-for" options
    then "async for " ++ bound_name "async-for" options ++ " in " else "";
    if contains "async" options then "await " else "" ].

(** The text of a node, and of the children of a signature node. *)
Definition astext (n : node) : string :=
  match n with
  | desc_addname _ text => text
  | desc_annotation _ text => text
  | host_node text => text
  end.

Definition signode_text (signode : list node) : string :=
  String.concat "" (map astext signode).

End Render.

(** ** The rendering hook: [filter_trio_fields] *)

Module Filter.

(** A [nodes.field]: the text of its first child, the field name, and the
    text of its body. *)
Record field : Type := mkField {
  field_name : string;
  field_body : string
}.

(** A child of the content node. *)
Inductive node : Type :=
| field_list (fields : list field)
| other_node (text : string).

(** [field_name == "trio" or field_name.startswith("trio ")] after
    [field[0].astext().strip()]. *)
Definition is_trio_field (f : field) : bool :=
  let field_name := PyStr.strip (field_name f) in
  String.eqb field_name "trio" || PyStr.startswith "trio " field_name.

(** The inner loop: the first field that passes the test is removed from
    the list and the loop is left by [break]. *)
Fixpoint filter_field_list (fields : list field) : list field :=
  match fields with
  | [] => []
  | f :: fields' =>
      if is_trio_field f then fields'
      else f :: filter_field_list fields'
  end.

(** The hook mutates [content]; the model returns its children after the
    call. *)
Definition filter_trio_fields (domain objtype : string) (content : list node)
  : list node :=
  if negb (String.eqb domain "py") then content
  else
    map (λ n, match n with
              | field_list fields => field_list (filter_field_list fields)
              | other_node _ => n
              end) content.

End Filter.

(** ** The docstring splitter: [separate_metadata] *)

Module Split.

(** The variables of the loop. *)
Record state : Type := mkState {
  in_other_element : bool;
  metadata : gmap string string;
  lines : list string
}.

Definition initial : state := mkState false ∅ [].

Section Splitter.

(** [sphinx.util.docstrings.prepare_docstring] *)
Variable prepare_docstring : string → list string.

(** [FIELD_LIST_ITEM_RE.match(line)]: [None], or the end offset of the
    match; a match starts at offset 0, so its [group()] is
    [line[:end]]. *)
Variable FIELD_LIST_ITEM_RE_match : string → option nat.

(** [matched.group()[1:].split(":", 1)[0]] *)
Definition field_name_of (line : string) (e : nat) : string :=
  PyStr.split_head ":" (PyStr.slice_from 1 (PyStr.slice_to e line)).

(** [line.strip() == ""] *)
Definition is_blank (line : string) : bool :=
  String.eqb (PyStr.strip line) "".

(** A field-list line whose field name starts with the reserved prefix:
    the tag name and the value the loop would store for it. *)
Definition trio_field (line : string) : option (string * string) :=
  match FIELD_LIST_ITEM_RE_match line with
  | Some e =>
      let field_name := field_name_of line e in
      if PyStr.startswith "trio " field_name
      then Some (PyStr.strip (PyStr.slice_from 5 field_name),
                 PyStr.strip (PyStr.slice_from e line))
      else None
  | None => None
  end.

(** The pattern matches at the start of the line. *)
Definition is_field_marker (line : string) : bool :=
  match FIELD_LIST_ITEM_RE_match line with
  | Some _ => true
  | None => false
  end.

(** The body of the [for] loop. *)
Definition step (st : state) (line : string) : state :=
  if String.eqb (PyStr.strip line) "" then
    mkState false (metadata st) (lines st ++ [line])%list
  else
    match FIELD_LIST_ITEM_RE_match line with
    | Some e =>
        if negb (in_other_element st) then
          let field_name := field_name_of line e in
          if PyStr.startswith "trio " field_name then
            let name := PyStr.strip (PyStr.slice_from 5 field_name) in
            mkState (in_other_element st)
                    (<[ name := PyStr.strip (PyStr.slice_from e line) ]> (metadata st))
                    (lines st)
          else
            mkState (in_other_element st) (metadata st) (lines st ++ [line])%list
        else
          mkState true (metadata st) (lines st ++ [line])%list
    | None =>
        mkState true (metadata st) (lines st ++ [line])%list
    end.

(** The [for] loop over the prepared lines. *)
Definition run (st : state) (ls : list string) : state :=
  fold_left step ls st.

Definition separate_metadata (s : string) : string * gmap string string :=
  if negb (PyStr.truthy s) then (s, ∅)
  else
    let st := run initial (prepare_docstring s) in
    (PyStr.join PyStr.NEWLINE (lines st), metadata st).

End Splitter.

End Split.

(** ** The imported functions, as docutils and Sphinx define them

The module imports [Body.patterns['field_marker']] from docutils and
[prepare_docstring] from Sphinx.  The theorems about the splitter hold
for any two functions in their place; the definitions below give the
two functions themselves, for running the splitter on a docstring. *)

Module Host.

Definition LF : ascii := ascii_of_nat 10.
Definition CR : ascii := ascii_of_nat 13.
Definition TAB : ascii := ascii_of_nat 9.
Definition BACKSLASH : ascii := ascii_of_nat 92.

(** [$] without [re.MULTILINE]: the end of the text, or the place before
    a newline that ends it. *)
Definition at_dollar (s : string) : bool :=
  match s with
  | EmptyString => true
  | String c EmptyString => Ascii.eqb c LF
  | _ => false
  end.

(** The text starts with one of the characters of [[ `]]. *)
Definition at_space_or_backtick (s : string) : bool :=
  match s with
  | String c _ => Ascii.eqb c " " || Ascii.eqb c "`"
  | EmptyString => false
  end.

(** The starred group [([^:\\]|\\.|:(?!([ `]|$)))*] of the pattern
    [:(?![: ])([^:\\]|\\.|:(?!([ `]|$)))*(?<! ):( +|$)].  The three
    alternatives start with different characters, and a colon at which
    the group may go on is one at which the rest [:( +|$)] of the pattern
    fails, so the only offset at which the whole pattern can match is the
    one where the group cannot go on.  [field_name_end prev pos s] is that
    offset, with the character before it and the text from it on; [s] is
    the text from offset [pos] on and [prev] the character before it. *)
Fixpoint field_name_end (prev : ascii) (pos : nat) (s : string)
  : ascii * nat * string :=
  match s with
  | EmptyString => (prev, pos, s)
  | String c s' =>
      if Ascii.eqb c BACKSLASH then
        match s' with
        | String d s'' =>
            if Ascii.eqb d LF then (prev, pos, s)
            else field_name_end d (pos + 2) s''
        | EmptyString => (prev, pos, s)
        end
      else if Ascii.eqb c ":" then
        if at_space_or_backtick s' || at_dollar s' then (prev, pos, s)
        else field_name_end c (pos + 1) s'
      else field_name_end c (pos + 1) s'
  end.

(** The number of spaces the text starts with. *)
Fixpoint count_spaces (s : string) : nat :=
  match s with
  | String c s' => if Ascii.eqb c " " then S (count_spaces s') else 0
  | EmptyString => 0
  end.

(** [re.compile(Body.patterns['field_marker']).match(line)], as the end
    offset of the match. *)
Definition field_marker_match (line : string) : option nat :=
  match line with
  | String c0 s1 =>
      if negb (Ascii.eqb c0 ":") then None
      else if match s1 with
              | String c1 _ => Ascii.eqb c1 ":" || Ascii.eqb c1 " "
              | EmptyString => false
              end then None
      else
        let '(prev, pos, rest) := field_name_end c0 1 s1 in
        match rest with
        | String c rest' =>
            if negb (Ascii.eqb c ":") then None
            else if Ascii.eqb prev " " then None
            else
              let n := count_spaces rest' in
              if (0 <? n)%nat then Some (pos + 1 + n)
              else if at_dollar rest' then Some (pos + 1)
              else None
        | EmptyString => None
        end
  | EmptyString => None
  end.

(** [" " * n] *)
Fixpoint spaces (n : nat) : string :=
  match n with
  | O => EmptyString
  | S n' => String " " (spaces n')
  end.

(** [s.expandtabs(tabsize)]; [col] is the column reached so far. *)
Fixpoint expandtabs_from (tabsize col : nat) (s : string) : string :=
  match s with
  | EmptyString => EmptyString
  | String c s' =>
      if Ascii.eqb c TAB then
        if (0 <? tabsize)%nat then
          let incr := tabsize - col mod tabsize in
          spaces incr ++ expandtabs_from tabsize (col + incr) s'
        else expandtabs_from tabsize col s'
      else
        String c (expandtabs_from tabsize
                    (if Ascii.eqb c LF || Ascii.eqb c CR then 0 else S col) s')
  end.

Definition expandtabs (tabsize : nat) (s : string) : string :=
  expandtabs_from tabsize 0 s.

(** The line boundaries of [str.splitlines] below code point 256. *)
Definition is_linebreak (c : ascii) : bool :=
  let n := nat_of_ascii c in
  (((10 <=? n) && (n <=? 13)) || ((28 <=? n) && (n <=? 30)) || (n =? 133))%nat.

(** [s.splitlines()]; [cur] is the line read so far. *)
Fixpoint splitlines_from (cur : string) (s : string) : list string :=
  match s with
  | EmptyString => if PyStr.truthy cur then [cur] else []
  | String c s' =>
      if Ascii.eqb c CR then
        match s' with
        | String d s'' =>
            if Ascii.eqb d LF then cur :: splitlines_from EmptyString s''
            else cur :: splitlines_from EmptyString s'
        | EmptyString => cur :: splitlines_from EmptyString s'
        end
      else if is_linebreak c then cur :: splitlines_from EmptyString s'
      else splitlines_from (cur ++ String c EmptyString) s'
  end.

Definition splitlines (s : string) : list string :=
  splitlines_from EmptyString s.

(** The least indentation of the lines that are not blank; [None] stands
    for [sys.maxsize]. *)
Definition min_margin (ls : list string) : option nat :=
  fold_left
    (λ margin line,
       let content := String.length (PyStr.lstrip line) in
       if (0 <? content)%nat then
         let indent := String.length line - content in
         match margin with
         | Some m => Some (Nat.min m indent)
         | None => Some indent
         end
       else margin)
    ls None.

(** [while lines and not lines[0]: lines.pop(0)] *)
Fixpoint drop_leading_empty (ls : list string) : list string :=
  match ls with
  | l :: ls' => if PyStr.truthy l then ls else drop_leading_empty ls'
  | [] => []
  end.

(** [if lines and lines[-1]: lines.append('')] *)
Definition ensure_empty_last (ls : list string) : list string :=
  match last ls with
  | Some l => if PyStr.truthy l then (ls ++ [EmptyString])%list else ls
  | None => ls
  end.

(** [sphinx.util.docstrings.prepare_docstring(s)], with the default tab
    size. *)
Definition prepare_docstring (s : string) : list string :=
  let lines := splitlines (expandtabs 8 s) in
  let margin := min_margin (tail lines) in
  let lines :=
    match lines with
    | l0 :: rest =>
        PyStr.lstrip l0 ::
        match margin with
        | Some m => map (PyStr.slice_from m) rest
        | None => rest
        end
    | [] => []
    end in
  ensure_empty_last (drop_leading_empty lines).

(** [separate_metadata] with the two imported functions in place. *)
Definition separate_metadata : string → string * gmap string string :=
  Split.separate_metadata prepare_docstring field_marker_match.

End Host.

(** ** Autodoc: [passthrough_option_lines] and the documenters *)

Module Documenter.

Import Sniff Merge.

(** The keys of the option tables, in the order the dictionaries hold
    them. *)
Definition extended_function_option_spec : list string :=
  ["async"; "decorator"; "with"; "async-with"; "for"; "async-for"].

Definition extended_method_option_spec : list string :=
  (extended_function_option_spec
   ++ ["abstractmethod"; "staticmethod"; "classmethod"; "property"])%list.

Definition autodoc_option_spec : list string := ["no-auto-options"].

(** A [dict] of strings in the order of its keys. [od_set k v items] is
    [items[k] = v]: a key that is there keeps its place and takes the new
    value, a new key goes to the end. *)
Fixpoint od_set (k v : string) (items : list (string * string))
  : list (string * string) :=
  match items with
  | [] => [(k, v)]
  | (k', v') :: items' =>
      if String.eqb k' k then (k, v) :: items'
      else (k', v') :: od_set k v items'
  end.

(** The variables of the loop of [separate_metadata], the dictionary in
    the order of its keys. *)
Record ostate : Type := mkOstate {
  o_in_other_element : bool;
  o_metadata : list (string * string);
  o_lines : list string
}.

Definition o_initial : ostate := mkOstate false [] [].


Section Passthrough.

Variable prepare_docstring : string → list string.
Variable FIELD_LIST_ITEM_RE_match : string → option nat.

(** The body of the [for] loop of [separate_metadata]. *)
Definition ostep (st : ostate) (line : string) : ostate :=
  if String.eqb (PyStr.strip line) "" then
    mkOstate false (o_metadata st) (o_lines st ++ [line])%list
  else
    match FIELD_LIST_ITEM_RE_match line with
    | Some e =>
        if negb (o_in_other_element st) then
          let field_name := Split.field_name_of line e in
          if PyStr.startswith "trio " field_name then
            let name := PyStr.strip (PyStr.slice_from 5 field_name) in
            mkOstate (o_in_other_element st)
                     (od_set name (PyStr.strip (PyStr.slice_from e line))
                        (o_metadata st))
                     (o_lines st)
          else
            mkOstate (o_in_other_element st) (o_metadata st)
                     (o_lines st ++ [line])%list
        else
          mkOstate true (o_metadata st) (o_lines st ++ [line])%list
    | None =>
        mkOstate true (o_metadata st) (o_lines st ++ [line])%list
    end.

Definition orun (st : ostate) (ls : list string) : ostate :=
  fold_left ostep ls st.

(** [separate_metadata(s)], the mapping as [metadata.items()] yields it. *)
Definition separate_metadata_items (s : string)
  : string * list (string * string) :=
  if negb (PyStr.truthy s) then (s, [])
  else
    let st := orun o_initial (prepare_docstring s) in
    (PyStr.join PyStr.NEWLINE (o_lines st), o_metadata st).

(** [self.add_line(line, sourcename)], as the lines added so far. *)
Definition add_line (added : list string) (line : string) : list string :=
  (added ++ [line])%list.

(** The line for an option of [self.options]: with its value when the value
    is not [None]. *)
Definition option_line (option : string) (v : pyval) : string :=
  match v with
  | PyStr s => "   :" ++ option ++ ": " ++ s
  | PyNone => "   :" ++ option ++ ":"
  end.

(** The body of the loop over [option_spec]. *)
Definition pass_option (options : gmap string pyval) (added : list string)
    (option : string) : list string :=
  match options !! option with
  | Some v => add_line added (option_line option v)
  | None => added
  end.

(** [option_name in available_options] *)
Definition is_available (available_options : list string) (option_name : string)
  : bool :=
  bool_decide (option_name ∈ available_options).

(** The line for an option of the docstring: with its value when the value
    is not empty. *)
Definition metadata_line (option_name option_value : string) : string :=
  if PyStr.truthy option_value
  then "   :" ++ option_name ++ ": " ++ option_value
  else "   :" ++ option_name ++ ":".

(** The body of the loop over [metadata.items()]. *)
Definition pass_metadata (available_options : list string) (added : list string)
    (item : string * string) : list string :=
  let '(option_name, option_value) := item in
  if negb (is_available available_options option_name) then added
  else add_line added (metadata_line option_name option_value).

(** The table the options of the docstring are looked up in. *)
Definition available_options (objtype : string) : list string :=
  if String.eqb objtype "method" then extended_method_option_spec
  else extended_function_option_spec.

(** [sum(doc, [])] *)
Definition sum_lists (doc : list (list string)) : list string :=
  fold_left (λ acc part, acc ++ part)%list doc [].

(** The lines [passthrough_option_lines] hands to [add_line], in order.
    [doc] is what [self.get_doc()] returns, the empty list also standing
    for [None]. *)
Definition passthrough_option_lines (options : gmap string pyval)
    (objtype : string) (doc : list (list string)) (option_spec : list string)
  : list string :=
  let added := fold_left (pass_option options) option_spec [] in
  match doc with
  | [] => added
  | _ :: _ =>
      let '(docstring, metadata) :=
        separate_metadata_items (PyStr.join PyStr.NEWLINE (sum_lists doc)) in
      fold_left (pass_metadata (available_options objtype)) metadata added
  end.

End Passthrough.

(** [ExtendedMethodDocumenter.import_object] after the import itself:
    [obj] is what [inspect.getattr_static] found, and the result is
    [self.options] and [self.member_order] as the method leaves them;
    [None] when the sniffer runs out of fuel. *)
Definition method_import_object (CM_CODES ACM_CODES : gset nat)
    (heap : ref → PyObj) (fuel : nat) (obj : ref)
    (options : gmap string pyval) (member_order : Z)
  : option (gmap string pyval * Z) :=
  match update_with_sniffed_options CM_CODES ACM_CODES heap fuel obj options with
  | Some options =>
      Some (options,
            if contains "classmethod" options || contains "staticmethod" options
            then (member_order - 1)%Z else member_order)
  | None => None
  end.

End Documenter.

(** ** The nodes [handle_signature] adds, part by part *)

Module Annotations.

Import Merge Render.

(** The annotation in front: the words of the prefix, when there are any. *)
Definition prefix_nodes (options : gmap string pyval) (objtype : string)
  : list node :=
  let prefix := String.concat "" (prefix_words options objtype) in
  if PyStr.truthy prefix then [desc_annotation prefix prefix] else [].

(** The decorator marker. *)
Definition marker_nodes (options : gmap string pyval) (objtype : string)
  : list node :=
  if is_decorator options objtype then [desc_addname "@" "@"] else [].

(** The annotation behind, for [with] or [async-with]: the name as it was
    given, when it is not blank. *)
Definition as_suffix (k : string) (options : gmap string pyval) : list node :=
  match options !! k with
  | Some (PyStr s) =>
      if PyStr.truthy (PyStr.strip s)
      then [desc_annotation (NBSP ++ "as " ++ s) (NBSP ++ "as " ++ s)]
      else []
  | _ => []
  end.

End Annotations.

(** ** Objects and docstrings the statements are run on *)

Module Examples.

Import Sniff.

(** The code objects of the helpers [contextlib.contextmanager] and
    [contextlib.asynccontextmanager] return. *)
Definition CM_CODES : gset nat := {[ 100 ]}.
Definition ACM_CODES : gset nat := {[ 101 ]}.

(** An object with none of the attributes the sniffer looks at. *)
Definition plain : PyObj :=
  mkPyObj false false false false false false None false false None None.

(** [async def f(): ...] with [f.__returns_contextmanager__ = True]. *)
Definition async_returning_cm : PyObj :=
  mkPyObj false false false true false false (Some 7) true false None None.

Definition heap_async_cm (r : ref) : PyObj :=
  match r with
  | 0 => async_returning_cm
  | _ => plain
  end.

(** An abstract classmethod around a generator function: object 0 is the
    [classmethod] object, object 1 its [__func__]. *)
Definition heap_classmethod_gen (r : ref) : PyObj :=
  match r with
  | 0 => mkPyObj true true false false false false None false false None (Some 1)
  | 1 => mkPyObj true false false false true false (Some 8) false false None None
  | _ => plain
  end.

(** What the sniffer finds on it. *)
Definition sniffed_classmethod_gen : gset string :=
  {[ "abstractmethod"; "classmethod"; "for" ]}.

(** The options of a directive with [:with:] and no name. *)
Definition options_blank_with : gmap string pyval := {[ "with" := PyStr "" ]}.

(** An object that is its own [__wrapped__]. *)
Definition heap_cycle (r : ref) : PyObj :=
  mkPyObj false false false false false false None false false (Some r) None.

(** A superclass [handle_signature] that puts the name and the argument
    list of [foo(x, y)] into the signature node. *)
Definition super_foo (sig : string) (signode : list Render.node)
  : result (unit * list Render.node) :=
  Ok (tt, (signode ++ [Render.host_node "foo"; Render.host_node "(x, y)"])%list).

End Examples.

(* ================================================================== *)
(** * Part II. Theorems                                                *)
(* ================================================================== *)

Local Open Scope nat_scope.
Local Open Scope list_scope.

(** ** The sniffer *)

(** Closes a decidable goal without variables by evaluating its decision
    procedure. *)
Ltac by_compute :=
  match goal with
  | |- ?P => let d := constr:(_ : Decision P) in
             refine (@bool_decide_unpack P d _); vm_compute; exact I
  end.

Module SniffFacts.

Import Sniff.

Lemma if_singleton_sub (c : bool) (x : string) (X : gset string) :
  x ∈ X → (if c then {[ x ]} else ∅) ⊆ X.
Proof. destruct c; set_solver. Qed.

Lemma if_union_orb (c1 c2 : bool) (X : gset string) :
  (if c1 then X else ∅) ∪ (if c2 then X else ∅) = if c1 || c2 then X else ∅.
Proof. destruct c1, c2; set_solver. Qed.

Lemma add_if_union c x (options : gset string) :
  add_if c x options = options ∪ (if c then {[ x ]} else ∅).
Proof. destruct c; unfold add_if, add; set_solver. Qed.

Lemma independent_exclusive_disjoint :
  INDEPENDENT_OPTIONS ∩ EXCLUSIVE_OPTIONS = ∅.
Proof. by_compute. Qed.

Lemma independent_tags_sub o : independent_tags o ⊆ INDEPENDENT_OPTIONS.
Proof.
  unfold independent_tags.
  repeat apply union_least; apply if_singleton_sub;
    by_compute.
Qed.

Section Loop.

Context (CM_CODES ACM_CODES : gset nat).

Lemma exclusive_tags_sub o :
  exclusive_tags CM_CODES ACM_CODES o ⊆ EXCLUSIVE_OPTIONS.
Proof.
  unfold exclusive_tags.
  repeat apply union_least; try (apply if_singleton_sub;
    by_compute).
  destruct (iscoroutinefunction o); [| apply if_singleton_sub];
    by_compute.
Qed.

Lemma sniff_independent_union o options :
  sniff_independent o options = options ∪ independent_tags o.
Proof.
  unfold sniff_independent, independent_tags.
  rewrite !add_if_union.
  generalize (if isabstractmethod o then ({[ "abstractmethod" ]} : gset string) else ∅).
  generalize (if is_classmethod o then ({[ "classmethod" ]} : gset string) else ∅).
  generalize (if is_staticmethod o then ({[ "staticmethod" ]} : gset string) else ∅).
  intros. set_solver.
Qed.

Lemma sniff_exclusive_block_union o options :
  sniff_exclusive_block CM_CODES ACM_CODES o options
  = options ∪ exclusive_tags CM_CODES ACM_CODES o.
Proof.
  unfold sniff_exclusive_block, exclusive_tags.
  rewrite !add_if_union, <- !if_union_orb.
  assert ((if iscoroutinefunction o then add "async" options
           else if isgeneratorfunction o then add "for" options else options)
          = options ∪ (if iscoroutinefunction o then {[ "async" ]}
                       else if isgeneratorfunction o then {[ "for" ]} else ∅))
    as ->.
  { unfold add. destruct (iscoroutinefunction o), (isgeneratorfunction o);
      set_solver. }
  generalize (if iscoroutinefunction o then ({[ "async" ]} : gset string)
              else if isgeneratorfunction o then {[ "for" ]} else ∅).
  generalize (if isasyncgenfunction o then ({[ "async-for" ]} : gset string) else ∅).
  generalize (if code_in o CM_CODES then ({[ "with" ]} : gset string) else ∅).
  generalize (if returns_contextmanager o then ({[ "with" ]} : gset string) else ∅).
  generalize (if code_in o ACM_CODES then ({[ "async-with" ]} : gset string) else ∅).
  generalize (if returns_acontextmanager o then ({[ "async-with" ]} : gset string) else ∅).
  intros. set_solver.
Qed.

(** The guard of the exclusive block looks at the accumulated set after the
    non-exclusive tags of the layer went in; they make no difference. *)
Lemma guard_after_independent o (options : gset string) :
  (options ∪ independent_tags o) ∩ EXCLUSIVE_OPTIONS = ∅
  ↔ options ∩ EXCLUSIVE_OPTIONS = ∅.
Proof.
  pose proof (independent_tags_sub o).
  pose proof independent_exclusive_disjoint.
  generalize dependent (independent_tags o).
  generalize dependent INDEPENDENT_OPTIONS.
  generalize dependent EXCLUSIVE_OPTIONS.
  intros. set_solver.
Qed.

Lemma sniff_body_union o options :
  sniff_body CM_CODES ACM_CODES o options =
    options ∪ independent_tags o
    ∪ (if decide (options ∩ EXCLUSIVE_OPTIONS = ∅)
       then exclusive_tags CM_CODES ACM_CODES o else ∅).
Proof.
  unfold sniff_body.
  rewrite sniff_independent_union, sniff_exclusive_block_union.
  pose proof (guard_after_independent o options) as Hg.
  repeat case_decide; try tauto; set_solver.
Qed.

Context (heap : ref → PyObj).

Lemma union_independent_sub l :
  union_independent heap l ⊆ INDEPENDENT_OPTIONS.
Proof.
  induction l as [| obj l IH]; simpl; [set_solver |].
  pose proof (independent_tags_sub (heap obj)). set_solver.
Qed.

Lemma first_exclusive_sub l :
  first_exclusive CM_CODES ACM_CODES heap l ⊆ EXCLUSIVE_OPTIONS.
Proof.
  induction l as [| obj l IH]; simpl; [set_solver |].
  case_decide; [done | apply exclusive_tags_sub].
Qed.

(** The first layer with an exclusive tag decides [first_exclusive]. *)
Lemma first_exclusive_app l1 obj l2 :
  Forall (λ r, exclusive_tags CM_CODES ACM_CODES (heap r) = ∅) l1 →
  exclusive_tags CM_CODES ACM_CODES (heap obj) ≠ ∅ →
  first_exclusive CM_CODES ACM_CODES heap (l1 ++ obj :: l2)
  = exclusive_tags CM_CODES ACM_CODES (heap obj).
Proof.
  intros Hl1 Hobj. induction Hl1 as [| r l1 Hr _ IH]; simpl.
  - case_decide; [contradiction | reflexivity].
  - case_decide; [exact IH | contradiction].
Qed.

Lemma first_exclusive_none l :
  Forall (λ r, exclusive_tags CM_CODES ACM_CODES (heap r) = ∅) l →
  first_exclusive CM_CODES ACM_CODES heap l = ∅.
Proof.
  induction 1 as [| r l Hr _ IH]; simpl; [reflexivity |].
  case_decide; [exact IH | contradiction].
Qed.

(** The loop invariant: what the loop returns when started with the
    accumulated set [options] at the head of a chain. *)
Lemma sniff_loop_chain obj l :
  wrapped_chain heap obj l →
  ∀ fuel options, length l ≤ fuel →
    sniff_loop CM_CODES ACM_CODES heap fuel obj options
    = Some (options ∪ union_independent heap l
            ∪ (if decide (options ∩ EXCLUSIVE_OPTIONS = ∅)
               then first_exclusive CM_CODES ACM_CODES heap l else ∅)).
Proof.
  induction 1 as [obj Hnext | obj obj' l Hnext Hchain IH];
    intros [| fuel] options Hfuel; simpl in Hfuel; try lia; simpl.
  - rewrite Hnext, sniff_body_union. f_equal.
    repeat case_decide; set_solver.
  - rewrite Hnext, IH by lia. rewrite sniff_body_union. f_equal.
    pose proof (exclusive_tags_sub (heap obj)) as Hex.
    pose proof (independent_tags_sub (heap obj)) as Hin.
    pose proof independent_exclusive_disjoint as Hdis.
    generalize dependent (exclusive_tags CM_CODES ACM_CODES (heap obj)).
    generalize dependent (independent_tags (heap obj)).
    generalize (first_exclusive CM_CODES ACM_CODES heap l).
    generalize (union_independent heap l).
    generalize dependent INDEPENDENT_OPTIONS.
    generalize dependent EXCLUSIVE_OPTIONS.
    intros. repeat case_decide; set_solver.
Qed.

(** With less fuel than the chain has objects the loop does not reach its
    [break]. *)
Lemma sniff_loop_short obj l :
  wrapped_chain heap obj l →
  ∀ fuel options, fuel < length l →
    sniff_loop CM_CODES ACM_CODES heap fuel obj options = None.
Proof.
  induction 1 as [obj Hnext | obj obj' l Hnext Hchain IH];
    intros [| fuel] options Hfuel; simpl in Hfuel; try lia; simpl;
    try reflexivity.
  rewrite Hnext. apply IH. lia.
Qed.

(** C2. When the objects reached from [obj] through [__wrapped__] and
    [__func__] form a finite chain [l] of N objects, [sniff_options] returns
    after N passes of its loop and needs all of them; in the returned set the
    tags [abstractmethod], [staticmethod] and [classmethod] are exactly those
    detected at some layer of the chain, and the exclusive tags are exactly
    those detected at the first layer of the chain at which any is detected
    (none when no layer detects one). *)
Theorem sniff_options_chain obj l :
  wrapped_chain heap obj l →
  ∃ R : gset string,
    (∀ fuel, sniff_options CM_CODES ACM_CODES heap fuel obj
             = if decide (length l ≤ fuel) then Some R else None)
    ∧ R ∩ INDEPENDENT_OPTIONS = union_independent heap l
    ∧ R ∩ EXCLUSIVE_OPTIONS = first_exclusive CM_CODES ACM_CODES heap l
    ∧ R ⊆ INDEPENDENT_OPTIONS ∪ EXCLUSIVE_OPTIONS
    ∧ (∀ l1 layer l2,
         l = l1 ++ layer :: l2 →
         Forall (λ r, exclusive_tags CM_CODES ACM_CODES (heap r) = ∅) l1 →
         exclusive_tags CM_CODES ACM_CODES (heap layer) ≠ ∅ →
         R ∩ EXCLUSIVE_OPTIONS = exclusive_tags CM_CODES ACM_CODES (heap layer))
    ∧ (Forall (λ r, exclusive_tags CM_CODES ACM_CODES (heap r) = ∅) l →
       R ∩ EXCLUSIVE_OPTIONS = ∅).
Proof.
  intros Hchain.
  exists (union_independent heap l ∪ first_exclusive CM_CODES ACM_CODES heap l).
  pose proof (union_independent_sub l) as Hin.
  pose proof (first_exclusive_sub l) as Hex.
  pose proof independent_exclusive_disjoint as Hdis.
  assert ((union_independent heap l ∪ first_exclusive CM_CODES ACM_CODES heap l)
          ∩ EXCLUSIVE_OPTIONS = first_exclusive CM_CODES ACM_CODES heap l) as Hexcl.
  { generalize dependent (first_exclusive CM_CODES ACM_CODES heap l).
    generalize dependent (union_independent heap l).
    generalize dependent INDEPENDENT_OPTIONS.
    generalize dependent EXCLUSIVE_OPTIONS. intros. set_solver. }
  split; [| split; [| split; [| split; [| split]]]].
  - intros fuel. unfold sniff_options. case_decide.
    + rewrite (sniff_loop_chain obj l Hchain) by assumption.
      f_equal. rewrite decide_True by set_solver. set_solver.
    + apply (sniff_loop_short obj l Hchain). lia.
  - generalize dependent (first_exclusive CM_CODES ACM_CODES heap l).
    generalize dependent (union_independent heap l).
    generalize dependent INDEPENDENT_OPTIONS.
    generalize dependent EXCLUSIVE_OPTIONS. intros. set_solver.
  - exact Hexcl.
  - set_solver.
  - intros l1 layer l2 -> Hl1 Hlayer. rewrite Hexcl.
    by apply first_exclusive_app.
  - intros Hnone. rewrite Hexcl. by apply first_exclusive_none.
Qed.

End Loop.

(** The chain of the abstract classmethod around a generator function. *)
Lemma chain_classmethod_gen :
  wrapped_chain Examples.heap_classmethod_gen 0 [0; 1].
Proof.
  apply chain_link with (obj' := 1); [reflexivity |].
  apply chain_last. reflexivity.
Defined.

Lemma sniff_options_chain_witness :
  ∃ R : gset string,
    (∀ fuel, sniff_options Examples.CM_CODES Examples.ACM_CODES
               Examples.heap_classmethod_gen fuel 0
             = if decide (length [0; 1] ≤ fuel) then Some R else None)
    ∧ R ∩ INDEPENDENT_OPTIONS
      = union_independent Examples.heap_classmethod_gen [0; 1]
    ∧ R ∩ EXCLUSIVE_OPTIONS
      = first_exclusive Examples.CM_CODES Examples.ACM_CODES
          Examples.heap_classmethod_gen [0; 1]
    ∧ R ⊆ INDEPENDENT_OPTIONS ∪ EXCLUSIVE_OPTIONS
    ∧ (∀ l1 layer l2,
         [0; 1] = l1 ++ layer :: l2 →
         Forall (λ r, exclusive_tags Examples.CM_CODES Examples.ACM_CODES
                        (Examples.heap_classmethod_gen r) = ∅) l1 →
         exclusive_tags Examples.CM_CODES Examples.ACM_CODES
           (Examples.heap_classmethod_gen layer) ≠ ∅ →
         R ∩ EXCLUSIVE_OPTIONS
         = exclusive_tags Examples.CM_CODES Examples.ACM_CODES
             (Examples.heap_classmethod_gen layer))
    ∧ (Forall (λ r, exclusive_tags Examples.CM_CODES Examples.ACM_CODES
                      (Examples.heap_classmethod_gen r) = ∅) [0; 1] →
       R ∩ EXCLUSIVE_OPTIONS = ∅).
Proof.
  exact (sniff_options_chain Examples.CM_CODES Examples.ACM_CODES
           Examples.heap_classmethod_gen 0 [0; 1] chain_classmethod_gen).
Defined.

(** What the sniffer returns on that chain. *)
Example sniff_options_classmethod_gen :
  sniff_options Examples.CM_CODES Examples.ACM_CODES
    Examples.heap_classmethod_gen 2 0
  = Some {[ "abstractmethod"; "classmethod"; "for" ]}.
Proof. by_compute. Qed.

(** An object that is its own [__wrapped__]: no amount of fuel is enough. *)
Example sniff_options_cycle fuel :
  sniff_options Examples.CM_CODES Examples.ACM_CODES Examples.heap_cycle fuel 0
  = None.
Proof.
  unfold sniff_options. generalize (∅ : gset string).
  induction fuel as [| fuel IH]; intros options; simpl; [reflexivity | apply IH].
Qed.

(** C1. A coroutine function that carries a true
    [__returns_contextmanager__] is one object; [sniff_options] returns for it
    a set with the two exclusive tags [async] and [with]. *)
Theorem sniff_options_two_exclusive :
  sniff_options Examples.CM_CODES Examples.ACM_CODES
    Examples.heap_async_cm 1 0 = Some {[ "async"; "with" ]}
  ∧ size (({[ "async"; "with" ]} : gset string) ∩ EXCLUSIVE_OPTIONS) = 2.
Proof. split; by_compute. Qed.

End SniffFacts.

(** ** The merge of sniffed options into the option dictionary *)

Module MergeFacts.

Import Sniff Merge.

Lemma contains_true k (d : gmap string pyval) :
  contains k d = true ↔ is_Some (d !! k).
Proof. unfold contains. by rewrite bool_decide_eq_true. Qed.

Lemma setdefault_lookup k v (d : gmap string pyval) k' :
  setdefault k v d !! k' =
    match d !! k' with
    | Some v' => Some v'
    | None => if decide (k = k') then Some v else None
    end.
Proof.
  unfold setdefault. destruct (d !! k) as [w |] eqn:Hk.
  - destruct (d !! k') eqn:Hk'; [reflexivity |].
    case_decide; [congruence | reflexivity].
  - rewrite lookup_insert. case_decide; subst.
    + by rewrite Hk.
    + by destruct (d !! k').
Qed.

Lemma setdefault_each_lookup attrs (d : gmap string pyval) k :
  setdefault_each attrs d !! k =
    match d !! k with
    | Some v => Some v
    | None => if decide (k ∈ attrs) then Some PyNone else None
    end.
Proof.
  revert d. induction attrs as [| attr attrs IH]; intros d.
  - cbn [setdefault_each]. destruct (d !! k); [reflexivity |].
    case_decide as Hin; [by apply elem_of_nil in Hin | reflexivity].
  - cbn [setdefault_each]. rewrite IH, setdefault_lookup.
    destruct (d !! k); [reflexivity |].
    repeat case_decide; subst; try reflexivity; exfalso; set_solver.
Qed.

Lemma merge_sniffed_lookup (sniffed : gset string) (d : gmap string pyval) k :
  merge_sniffed sniffed d !! k =
    match d !! k with
    | Some v => Some v
    | None => if decide (k ∈ sniffed) then Some PyNone else None
    end.
Proof.
  unfold merge_sniffed. rewrite setdefault_each_lookup.
  destruct (d !! k); [reflexivity |].
  destruct (decide (k ∈ sniffed)).
  - by rewrite decide_True by (by apply elem_of_elements).
  - by rewrite decide_False by (by rewrite elem_of_elements).
Qed.

(** C4. For every option dictionary and every set of sniffed tags, after
    the loop of [setdefault] calls every key that was present has the value
    it had (a bound name given for a tag stays, sniffed or not), and a key
    that was absent is present exactly when it is in the sniffed set, and then
    its value is [None].  [update_with_sniffed_options] returns whenever the
    sniffer does, and the dictionary it leaves is the one that loop gives for
    the sniffed set, or the one it was given when [no-auto-options] is
    there. *)
Theorem update_with_sniffed_options_setdefault
    (sniffed : gset string) (option_dict : gmap string pyval) :
  (∀ k v, option_dict !! k = Some v →
          merge_sniffed sniffed option_dict !! k = Some v)
  ∧ (∀ k, option_dict !! k = None →
          merge_sniffed sniffed option_dict !! k
          = if decide (k ∈ sniffed) then Some PyNone else None)
  ∧ (∀ CM_CODES ACM_CODES heap fuel obj,
       sniff_options CM_CODES ACM_CODES heap fuel obj = Some sniffed →
       update_with_sniffed_options CM_CODES ACM_CODES heap fuel obj option_dict
       = Some (if contains "no-auto-options" option_dict then option_dict
               else merge_sniffed sniffed option_dict)).
Proof.
  split; [| split].
  - intros k v Hk. by rewrite merge_sniffed_lookup, Hk.
  - intros k Hk. by rewrite merge_sniffed_lookup, Hk.
  - intros CM_CODES ACM_CODES heap fuel obj Hsniff.
    unfold update_with_sniffed_options. rewrite Hsniff.
    by destruct (contains "no-auto-options" option_dict).
Qed.

(** A generator function documented with [:for: loop_var]. *)
Lemma update_with_sniffed_options_setdefault_witness :
  update_with_sniffed_options Examples.CM_CODES Examples.ACM_CODES
    Examples.heap_classmethod_gen 2 0 {[ "for" := PyStr "loop_var" ]}
  = Some (if contains "no-auto-options"
               ({[ "for" := PyStr "loop_var" ]} : gmap string pyval)
          then {[ "for" := PyStr "loop_var" ]}
          else merge_sniffed {[ "abstractmethod"; "classmethod"; "for" ]}
                 {[ "for" := PyStr "loop_var" ]}).
Proof.
  apply (proj2 (proj2 (update_with_sniffed_options_setdefault
                         {[ "abstractmethod"; "classmethod"; "for" ]}
                         {[ "for" := PyStr "loop_var" ]}))).
  by_compute.
Defined.

(** The dictionary that example ends with. *)
Example update_with_sniffed_options_for :
  update_with_sniffed_options Examples.CM_CODES Examples.ACM_CODES
    Examples.heap_classmethod_gen 2 0 {[ "for" := PyStr "loop_var" ]}
  = Some {[ "for" := PyStr "loop_var"; "abstractmethod" := PyNone;
            "classmethod" := PyNone ]}.
Proof. by_compute. Qed.

(** C9. With [no-auto-options] among the keys, [update_with_sniffed_options]
    returns at once, whatever the object and without a single pass of the
    sniffer's loop, and the dictionary is the one it was given. *)
Theorem update_with_sniffed_options_no_auto
    (CM_CODES ACM_CODES : gset nat) (heap : ref → PyObj) (fuel : nat)
    (obj : ref) (option_dict : gmap string pyval) :
  is_Some (option_dict !! "no-auto-options") →
  update_with_sniffed_options CM_CODES ACM_CODES heap fuel obj option_dict
  = Some option_dict.
Proof.
  intros Hflag. unfold update_with_sniffed_options.
  apply contains_true in Hflag. by rewrite Hflag.
Qed.

(** The flag on an object whose [__wrapped__] chain never ends, with no fuel
    at all. *)
Lemma update_with_sniffed_options_no_auto_witness :
  update_with_sniffed_options Examples.CM_CODES Examples.ACM_CODES
    Examples.heap_cycle 0 0 {[ "no-auto-options" := PyNone ]}
  = Some {[ "no-auto-options" := PyNone ]}.
Proof.
  apply (update_with_sniffed_options_no_auto Examples.CM_CODES
           Examples.ACM_CODES Examples.heap_cycle 0 0
           {[ "no-auto-options" := PyNone ]}).
  exists PyNone. reflexivity.
Defined.

End MergeFacts.

(** ** The signature prefix and suffix *)

Module RenderFacts.

Import Merge Render MergeFacts.

Lemma append_empty_r s : s +:+ "" = s.
Proof.
  induction s as [| c s IH]; [reflexivity |].
  change (String c (s +:+ "") = String c s). by f_equal.
Qed.

Lemma append_assoc s1 s2 s3 : (s1 +:+ s2) +:+ s3 = s1 +:+ (s2 +:+ s3).
Proof.
  induction s1 as [| c s1 IH]; [reflexivity |].
  change (String c ((s1 +:+ s2) +:+ s3) = String c (s1 +:+ s2 +:+ s3)).
  by f_equal.
Qed.

Lemma if_append (c : bool) ret w :
  (if c then ret +:+ w else ret) = ret +:+ (if c then w else "").
Proof. destruct c; [reflexivity | by rewrite append_empty_r]. Qed.

Lemma contains_dom k (d : gmap string pyval) :
  contains k d = bool_decide (k ∈ dom d).
Proof. unfold contains. apply bool_decide_ext. by rewrite elem_of_dom. Qed.

(** One round of the loop over the two kinds of [for]. *)
Lemma prefix_for_str options ret k render :
  str_valued k options →
  prefix_for options ret k render
  = Ok (ret +:+ (if contains k options
                 then render +:+ " " +:+ bound_name k options +:+ " in "
                 else "")).
Proof.
  intros Hstr. unfold prefix_for, bound_name, get_or_empty.
  destruct (contains k options) eqn:Hk; cbn iota; [| by rewrite append_empty_r].
  apply contains_true in Hk as [v Hv]. rewrite Hv. simpl.
  destruct v as [| s]; [by destruct Hstr |]. simpl.
  by destruct (PyStr.truthy (PyStr.strip s)).
Qed.

(** One round of the loop over [with] and [async-with]. *)
Lemma suffix_for_absent options signode k :
  options !! k = None → suffix_for options signode k = Ok signode.
Proof.
  intros Hk. unfold suffix_for, get_or_empty. rewrite Hk. reflexivity.
Qed.

Lemma get_signature_prefix_words options objtype :
  str_valued "for" options →
  str_valued "async-for" options →
  _get_signature_prefix options objtype
  = Ok (String.concat "" (prefix_words options objtype)).
Proof.
  intros Hfor Hafor. unfold _get_signature_prefix.
  rewrite (prefix_for_str _ _ "for" "for" Hfor). cbn [bind].
  rewrite (prefix_for_str _ _ "async-for" "async for" Hafor). cbn [bind].
  rewrite !if_append. unfold prefix_words. cbn [String.concat].
  rewrite !append_assoc. reflexivity.
Qed.

Lemma prefix_append sub s : String.prefix sub (sub +:+ s) = true.
Proof.
  induction sub as [| c sub IH]; [by destruct s |].
  change (String.prefix (String c sub) (String c (sub +:+ s)) = true).
  cbn [String.prefix]. destruct (ascii_dec c c); [exact IH | congruence].
Qed.

Lemma has_substring_here sub s : PyStr.has_substring sub (sub +:+ s) = true.
Proof.
  destruct (sub +:+ s) eqn:E; cbn [PyStr.has_substring];
    rewrite <- E, prefix_append; reflexivity.
Qed.

Lemma has_substring_append_l sub a s :
  PyStr.has_substring sub s = true → PyStr.has_substring sub (a +:+ s) = true.
Proof.
  intros Hs. induction a as [| c a IH]; [exact Hs |].
  change (PyStr.has_substring sub (String c (a +:+ s)) = true).
  cbn [PyStr.has_substring]. rewrite IH. apply orb_true_r.
Qed.

(** C3. Where the values of [for] and [async-for] are strings, the prefix is
    the words of the tags that are there, put together in the order
    abstractmethod, staticmethod, classmethod, with, async with,
    for ... in, async for ... in, await.  And where the options are exactly
    [abstractmethod], [classmethod] and [async], on an object that is not
    declared by the [staticmethod] directive, the prefix is
    "abstractmethod classmethod await " and [handle_signature] puts nothing
    behind what the superclass rendered. *)
Theorem signature_prefix_order (options : gmap string pyval) (objtype : string) :
  (str_valued "for" options → str_valued "async-for" options →
   _get_signature_prefix options objtype
   = Ok (String.concat "" (prefix_words options objtype)))
  ∧ (dom options = {[ "abstractmethod"; "classmethod"; "async" ]} →
     objtype ≠ "staticmethod" →
     _get_signature_prefix options objtype
     = Ok "abstractmethod classmethod await "
     ∧ ∀ (ret_t : Type) super sig signode (ret : ret_t) sn,
         super sig signode = Ok (ret, sn) →
         handle_signature ret_t super options objtype sig signode
         = Ok (ret,
               desc_annotation "abstractmethod classmethod await "
                               "abstractmethod classmethod await "
               :: (if is_decorator options objtype
                   then desc_addname "@" "@" :: sn else sn))).
Proof.
  split; [apply get_signature_prefix_words |].
  intros Hdom Hobj.
  assert (∀ k, contains k options
               = bool_decide (k ∈ ({[ "abstractmethod"; "classmethod"; "async" ]}
                                   : gset string))) as Hc.
  { intros k. by rewrite contains_dom, Hdom. }
  assert (_get_signature_prefix options objtype
          = Ok "abstractmethod classmethod await ") as Hprefix.
  { unfold _get_signature_prefix, prefix_for. rewrite !Hc.
    apply String.eqb_neq in Hobj. rewrite Hobj. reflexivity. }
  split; [exact Hprefix |].
  intros ret_t super sig signode ret sn Hsuper.
  unfold handle_signature. rewrite Hsuper. cbn [bind]. rewrite Hprefix.
  cbn [bind PyStr.truthy].
  rewrite suffix_for_absent
    by (apply not_elem_of_dom; rewrite Hdom; by_compute).
  cbn [bind].
  rewrite suffix_for_absent
    by (apply not_elem_of_dom; rewrite Hdom; by_compute).
  reflexivity.
Qed.

Lemma signature_prefix_order_witness :
  _get_signature_prefix
    {[ "abstractmethod" := PyNone; "classmethod" := PyNone; "async" := PyNone ]}
    "method"
  = Ok "abstractmethod classmethod await "
  ∧ ∀ (ret_t : Type) super sig signode (ret : ret_t) sn,
      super sig signode = Ok (ret, sn) →
      handle_signature ret_t super
        {[ "abstractmethod" := PyNone; "classmethod" := PyNone; "async" := PyNone ]}
        "method" sig signode
      = Ok (ret,
            desc_annotation "abstractmethod classmethod await "
                            "abstractmethod classmethod await "
            :: (if is_decorator
                     {[ "abstractmethod" := PyNone; "classmethod" := PyNone;
                        "async" := PyNone ]} "method"
                then desc_addname "@" "@" :: sn else sn)).
Proof.
  apply (proj2 (signature_prefix_order
                  {[ "abstractmethod" := PyNone; "classmethod" := PyNone;
                     "async" := PyNone ]} "method")).
  - by_compute.
  - discriminate.
Defined.

(** The documented example of a context manager, [:with: bar] on
    [foo(x, y)]. *)
Example handle_signature_with_bar :
  handle_signature unit Examples.super_foo {[ "with" := PyStr "bar" ]}
    "function" "foo(x, y)" []
  = Ok (tt, [desc_annotation "with " "with "; host_node "foo";
             host_node "(x, y)";
             desc_annotation (NBSP +:+ "as bar") (NBSP +:+ "as bar")]).
Proof. reflexivity. Qed.

(** C7 as it is worded fails for [with]: the option [:with:] with
    no name on [foo(x, y)] gives the prefix "with " and nothing else; there is
    no ellipsis in what is rendered. *)
Lemma blank_with_renders_no_ellipsis :
  handle_signature unit Examples.super_foo {[ "with" := PyStr "" ]}
    "function" "foo(x, y)" []
  = Ok (tt, [desc_annotation "with " "with "; host_node "foo";
             host_node "(x, y)"])
  ∧ PyStr.has_substring "..."
      (signode_text [desc_annotation "with " "with "; host_node "foo";
                     host_node "(x, y)"]) = false.
Proof. split; reflexivity. Qed.

(** What a blank [for] and a blank [async-with] render as. *)
Example get_signature_prefix_blank_for :
  _get_signature_prefix {[ "for" := PyStr "  " ]} "function"
  = Ok "for ... in ".
Proof. reflexivity. Qed.

Example handle_signature_blank_async_with :
  handle_signature unit Examples.super_foo {[ "async-with" := PyStr "" ]}
    "function" "foo(x, y)" []
  = Ok (tt, [desc_annotation "async with " "async with "; host_node "foo";
             host_node "(x, y)"]).
Proof. reflexivity. Qed.

(** A valued option that holds [None] is outside what the renderer is
    written for: it calls [strip] on the value. *)
Example get_signature_prefix_none_for :
  _get_signature_prefix {[ "for" := PyNone ]} "function" = Raise AttributeError.
Proof. reflexivity. Qed.

End RenderFacts.

(** ** The rendering hook *)

Module FilterFacts.

Import Filter.

(** The inner loop takes out the first field that has the reserved name and
    nothing else. *)
Lemma filter_field_list_first l1 f l2 :
  Forall (λ g, is_trio_field g = false) l1 →
  is_trio_field f = true →
  filter_field_list (l1 ++ f :: l2) = l1 ++ l2.
Proof.
  intros Hl1 Hf. induction Hl1 as [| g l1 Hg _ IH]; simpl.
  - by rewrite Hf.
  - by rewrite Hg, IH.
Qed.

Lemma filter_field_list_none l :
  Forall (λ g, is_trio_field g = false) l → filter_field_list l = l.
Proof.
  induction 1 as [| g l Hg _ IH]; simpl; [reflexivity |].
  by rewrite Hg, IH.
Qed.

(** C8. A field list with the two fields [:trio with: result] and
    [:trio async:] and a [:param x:] field: the hook removes the first of the
    two and leaves the second, whose name starts with the reserved prefix. *)
Theorem filter_trio_fields_leaves_second :
  filter_trio_fields "py" "function"
    [field_list [mkField "trio with" "result"; mkField "trio async" "";
                 mkField "param x" "the input"]]
  = [field_list [mkField "trio async" ""; mkField "param x" "the input"]]
  ∧ is_trio_field (mkField "trio async" "") = true.
Proof. split; reflexivity. Qed.

End FilterFacts.

(** ** The docstring splitter *)

Module SplitFacts.

Import Split.

Section Splitter.

Context (prepare_docstring : string → list string).
Context (re : string → option nat).

Lemma run_cons st line ls :
  run re st (line :: ls) = run re (step re st line) ls.
Proof. reflexivity. Qed.


(** A line that is no reserved field is kept and leaves the mapping as it
    is. *)
Lemma step_no_trio st line :
  trio_field re line = None →
  metadata (step re st line) = metadata st
  ∧ lines (step re st line) = lines st ++ [line].
Proof.
  unfold trio_field, step. intros Hno.
  destruct (String.eqb (PyStr.strip line) ""); [done |].
  destruct (re line) as [e |]; [| done].
  destruct (negb (in_other_element st)); [| done].
  destruct (PyStr.startswith "trio " (field_name_of line e)); done.
Qed.

Lemma run_no_trio ls :
  Forall (λ line, trio_field re line = None) ls →
  ∀ st, metadata (run re st ls) = metadata st
        ∧ lines (run re st ls) = lines st ++ ls.
Proof.
  induction 1 as [| line ls Hline _ IH]; intros st.
  - simpl. by rewrite app_nil_r.
  - rewrite run_cons. destruct (IH (step re st line)) as [-> ->].
    destruct (step_no_trio st line Hline) as [-> ->].
    by rewrite <- app_assoc.
Qed.




(** C5, amended. For a docstring none of whose prepared lines is a field
    with a name that starts with "trio ", [separate_metadata] returns an empty
    mapping and, for the text, the prepared lines joined by newlines: the
    lines [prepare_docstring] made of the docstring, not the docstring as it
    was written (the empty docstring is returned as it is). *)
Theorem separate_metadata_no_trio (s : string) :
  Forall (λ line, trio_field re line = None) (prepare_docstring s) →
  separate_metadata prepare_docstring re s
  = (if PyStr.truthy s
     then PyStr.join PyStr.NEWLINE (prepare_docstring s) else s, ∅).
Proof.
  intros Hno. unfold separate_metadata.
  destruct (PyStr.truthy s); [| reflexivity]. simpl.
  by destruct (run_no_trio _ Hno initial) as [-> ->].
Qed.

(** C6, amended. A blank line is kept and clears the flag.  A line that is
    not blank is either a reserved field met while the flag is clear, which
    goes into the mapping, or it is kept as it is; when it is kept the flag
    afterwards is set if it was set or if the line does not match the
    field-marker pattern, and stays clear for a field of another name met
    while the flag is clear.  A flag that is set is cleared by a blank line
    only. *)
Theorem step_keeps_line (st : state) (line : string) :
  (is_blank line = true →
   step re st line = mkState false (metadata st) (lines st ++ [line]))
  ∧ (is_blank line = false →
     in_other_element st = true ∨ trio_field re line = None →
     lines (step re st line) = lines st ++ [line]
     ∧ metadata (step re st line) = metadata st
     ∧ in_other_element (step re st line)
       = in_other_element st || negb (is_field_marker re line))
  ∧ (in_other_element st = true →
     in_other_element (step re st line) = false →
     is_blank line = true).
Proof.
  unfold is_blank, trio_field, is_field_marker, step.
  destruct (String.eqb (PyStr.strip line) ""); [by repeat split |].
  split; [discriminate |]. split.
  - intros _ Hkept. destruct (re line) as [e |].
    + destruct (in_other_element st); [done |]. simpl.
      destruct Hkept as [Hflag | Hno]; [discriminate |].
      by destruct (PyStr.startswith "trio " (field_name_of line e)).
    + by rewrite orb_true_r.
  - intros ->. simpl. by destruct (re line).
Qed.


End Splitter.

(** C5 as it is worded fails: the docstring "hello" has no field
    at all, and the text that comes back has a newline more. *)
Lemma separate_metadata_changes_text :
  Forall (λ line, trio_field Host.field_marker_match line = None)
    (Host.prepare_docstring "hello")
  ∧ Host.separate_metadata "hello" = ("hello" +:+ PyStr.NEWLINE, ∅)
  ∧ String.eqb ("hello" +:+ PyStr.NEWLINE) "hello" = false.
Proof.
  split; [| split; reflexivity].
  change (Host.prepare_docstring "hello") with ["hello"; ""].
  repeat constructor.
Qed.

Lemma separate_metadata_no_trio_witness :
  separate_metadata Host.prepare_docstring Host.field_marker_match "hello"
  = (if PyStr.truthy "hello"
     then PyStr.join PyStr.NEWLINE (Host.prepare_docstring "hello")
     else "hello", ∅).
Proof.
  apply (separate_metadata_no_trio Host.prepare_docstring
           Host.field_marker_match "hello").
  change (Host.prepare_docstring "hello") with ["hello"; ""].
  repeat constructor.
Defined.

(** A docstring that is already what [prepare_docstring] makes of it comes
    back as it is. *)
Example separate_metadata_prepared_text :
  Host.separate_metadata ("hello" +:+ PyStr.NEWLINE)
  = ("hello" +:+ PyStr.NEWLINE, ∅).
Proof. reflexivity. Qed.

(** C6 as it is worded fails: [:param x: int] is not blank and is
    not taken as metadata, the loop keeps it, and the flag is still clear
    after it; so the reserved field on the next line is taken. *)
Lemma field_line_leaves_flag_clear :
  is_blank ":param x: int" = false
  ∧ trio_field Host.field_marker_match ":param x: int" = None
  ∧ step Host.field_marker_match initial ":param x: int"
    = mkState false ∅ [":param x: int"]
  ∧ Host.separate_metadata
      (":param x: int" +:+ PyStr.NEWLINE +:+ ":trio with: result")
    = (":param x: int" +:+ PyStr.NEWLINE, {[ "with" := "result" ]}).
Proof. repeat split; by_compute. Qed.

Lemma step_keeps_line_witness :
  (is_blank ":param x: int" = true →
   step Host.field_marker_match initial ":param x: int"
   = mkState false (metadata initial) (lines initial ++ [":param x: int"]))
  ∧ (is_blank ":param x: int" = false →
     in_other_element initial = true
     ∨ trio_field Host.field_marker_match ":param x: int" = None →
     lines (step Host.field_marker_match initial ":param x: int")
     = lines initial ++ [":param x: int"]
     ∧ metadata (step Host.field_marker_match initial ":param x: int")
       = metadata initial
     ∧ in_other_element (step Host.field_marker_match initial ":param x: int")
       = in_other_element initial
         || negb (is_field_marker Host.field_marker_match ":param x: int"))
  ∧ (in_other_element initial = true →
     in_other_element (step Host.field_marker_match initial ":param x: int")
     = false →
     is_blank ":param x: int" = true).
Proof.
  exact (step_keeps_line Host.field_marker_match initial ":param x: int").
Defined.

(** Prose sets the flag, and a reserved field in the same paragraph is then
    kept as prose. *)
Example separate_metadata_after_prose :
  Host.separate_metadata
    ("Some words." +:+ PyStr.NEWLINE +:+ ":trio with: result")
  = ("Some words." +:+ PyStr.NEWLINE +:+ ":trio with: result"
     +:+ PyStr.NEWLINE, ∅).
Proof. by_compute. Qed.


(** The whole result for the two fields of one name. *)
Example separate_metadata_two_with :
  Host.separate_metadata
    (":trio with: a" +:+ PyStr.NEWLINE +:+ ":trio with: b")
  = ("", {[ "with" := "b" ]}).
Proof. by_compute. Qed.

End SplitFacts.

(** ** More on the sniffer: when it returns, and what it cannot return *)

Module SniffChains.

Import Sniff SniffFacts.

Section Loop.

Context (CM_CODES ACM_CODES : gset nat) (heap : ref → PyObj).

(** A loop that reaches its [break] has walked a finite chain. *)
Lemma sniff_loop_returns fuel :
  ∀ obj options R,
    sniff_loop CM_CODES ACM_CODES heap fuel obj options = Some R →
    ∃ l, wrapped_chain heap obj l ∧ length l ≤ fuel.
Proof.
  induction fuel as [| fuel IH]; intros obj options R Hret; [discriminate |].
  simpl in Hret. destruct (next_obj (heap obj)) as [obj' |] eqn:Hnext.
  - destruct (IH _ _ _ Hret) as (l & Hl & Hlen).
    exists (obj :: l). split; [by eapply chain_link | simpl; lia].
  - exists [obj]. split; [by apply chain_last | simpl; lia].
Qed.

Lemma sniff_options_value obj l fuel :
  wrapped_chain heap obj l → length l ≤ fuel →
  sniff_options CM_CODES ACM_CODES heap fuel obj
  = Some (union_independent heap l ∪ first_exclusive CM_CODES ACM_CODES heap l).
Proof.
  intros Hchain Hfuel. unfold sniff_options.
  rewrite (sniff_loop_chain _ _ _ obj l Hchain) by assumption.
  f_equal. rewrite decide_True by set_solver. set_solver.
Qed.

Lemma result_exclusive_part l :
  (union_independent heap l ∪ first_exclusive CM_CODES ACM_CODES heap l)
  ∩ EXCLUSIVE_OPTIONS
  = first_exclusive CM_CODES ACM_CODES heap l.
Proof.
  pose proof (union_independent_sub heap l) as Hin.
  pose proof (first_exclusive_sub CM_CODES ACM_CODES heap l) as Hex.
  pose proof independent_exclusive_disjoint as Hdis.
  generalize dependent (first_exclusive CM_CODES ACM_CODES heap l).
  generalize dependent (union_independent heap l).
  generalize dependent INDEPENDENT_OPTIONS.
  generalize dependent EXCLUSIVE_OPTIONS. intros. set_solver.
Qed.

(** The exclusive tags of a result are those of one layer, or none. *)
Lemma first_exclusive_layer l :
  first_exclusive CM_CODES ACM_CODES heap l = ∅
  ∨ ∃ r, r ∈ l
         ∧ first_exclusive CM_CODES ACM_CODES heap l
           = exclusive_tags CM_CODES ACM_CODES (heap r).
Proof.
  induction l as [| obj l IH]; simpl; [by left |].
  case_decide.
  - destruct IH as [-> | (r & Hr & ->)]; [by left |].
    right. exists r. split; [by constructor | reflexivity].
  - right. exists obj. split; [by constructor | reflexivity].
Qed.

(** One layer never detects [async] and [for] together. *)
Lemma exclusive_tags_async_for o :
  "async" ∈ exclusive_tags CM_CODES ACM_CODES o →
  "for" ∈ exclusive_tags CM_CODES ACM_CODES o → False.
Proof.
  unfold exclusive_tags.
  destruct (iscoroutinefunction o), (isgeneratorfunction o),
    (isasyncgenfunction o), (code_in o CM_CODES || returns_contextmanager o),
    (code_in o ACM_CODES || returns_acontextmanager o);
    rewrite !elem_of_union, ?elem_of_singleton, ?elem_of_empty;
    intros Ha Hf; repeat destruct Ha as [Ha | Ha]; try discriminate Ha;
    try contradiction;
    repeat destruct Hf as [Hf | Hf]; try discriminate Hf; contradiction.
Qed.

(** X1. When [sniff_options] returns after at most [fuel] passes of its loop,
    the objects met from [obj] through [__wrapped__] and [__func__] are a
    finite chain of at most [fuel] objects, and what is returned is what that
    chain gives.  On links that never end, as for an object that is its own
    [__wrapped__], the loop therefore never returns. *)
Theorem sniff_options_returns_chain fuel obj R :
  sniff_options CM_CODES ACM_CODES heap fuel obj = Some R →
  ∃ l, wrapped_chain heap obj l
       ∧ length l ≤ fuel
       ∧ R = union_independent heap l
             ∪ first_exclusive CM_CODES ACM_CODES heap l.
Proof.
  intros Hret.
  destruct (sniff_loop_returns _ _ _ _ Hret) as (l & Hl & Hlen).
  exists l. repeat split; try assumption.
  rewrite (sniff_options_value obj l fuel Hl Hlen) in Hret. congruence.
Qed.

(** X2. Whatever the objects are, a returned set never holds both [async]
    and [for]: within one object the two tests are chained by [elif], and
    across objects the guard on [EXCLUSIVE_OPTIONS] stops the second. *)
Theorem sniff_options_not_async_and_for fuel obj R :
  sniff_options CM_CODES ACM_CODES heap fuel obj = Some R →
  "async" ∉ R ∨ "for" ∉ R.
Proof.
  intros Hret.
  destruct (decide ("async" ∈ R)) as [Ha |]; [| by left].
  right. intros Hf.
  destruct (sniff_loop_returns _ _ _ _ Hret) as (l & Hl & Hlen).
  rewrite (sniff_options_value obj l fuel Hl Hlen) in Hret.
  injection Hret as <-.
  assert ("async" ∈ EXCLUSIVE_OPTIONS) as HaE by by_compute.
  assert ("for" ∈ EXCLUSIVE_OPTIONS) as HfE by by_compute.
  assert ("async" ∈ first_exclusive CM_CODES ACM_CODES heap l) as Ha'.
  { rewrite <- result_exclusive_part. by apply elem_of_intersection. }
  assert ("for" ∈ first_exclusive CM_CODES ACM_CODES heap l) as Hf'.
  { rewrite <- result_exclusive_part. by apply elem_of_intersection. }
  destruct (first_exclusive_layer l) as [He | (r & _ & He)];
    rewrite He in Ha', Hf'.
  - by apply elem_of_empty in Ha'.
  - by eapply exclusive_tags_async_for.
Qed.

(** X3. When no object of the chain has more than one exclusive tag
    detected on it, the returned set has at most one exclusive tag: tags of
    different objects are never mixed. *)
Theorem sniff_options_exclusive_across_layers obj l :
  wrapped_chain heap obj l →
  Forall (λ r, size (exclusive_tags CM_CODES ACM_CODES (heap r)) ≤ 1) l →
  ∃ R, sniff_options CM_CODES ACM_CODES heap (length l) obj = Some R
       ∧ size (R ∩ EXCLUSIVE_OPTIONS) ≤ 1.
Proof.
  intros Hchain Hone.
  eexists. split; [by apply sniff_options_value |].
  rewrite result_exclusive_part.
  destruct (first_exclusive_layer l) as [-> | (r & Hr & ->)].
  - rewrite size_empty. lia.
  - rewrite Forall_forall in Hone. by apply Hone.
Qed.

End Loop.

Lemma sniff_options_returns_chain_witness :
  ∃ l, wrapped_chain Examples.heap_classmethod_gen 0 l
       ∧ length l ≤ 5
       ∧ ({[ "abstractmethod"; "classmethod"; "for" ]} : gset string)
         = union_independent Examples.heap_classmethod_gen l
           ∪ first_exclusive Examples.CM_CODES Examples.ACM_CODES
               Examples.heap_classmethod_gen l.
Proof.
  apply (sniff_options_returns_chain Examples.CM_CODES Examples.ACM_CODES
           Examples.heap_classmethod_gen 5 0).
  by_compute.
Defined.

Lemma sniff_options_not_async_and_for_witness :
  "async" ∉ ({[ "abstractmethod"; "classmethod"; "for" ]} : gset string)
  ∨ "for" ∉ ({[ "abstractmethod"; "classmethod"; "for" ]} : gset string).
Proof.
  apply (sniff_options_not_async_and_for Examples.CM_CODES Examples.ACM_CODES
           Examples.heap_classmethod_gen 2 0).
  by_compute.
Defined.

Lemma sniff_options_exclusive_across_layers_witness :
  ∃ R, sniff_options Examples.CM_CODES Examples.ACM_CODES
         Examples.heap_classmethod_gen (length [0; 1]) 0 = Some R
       ∧ size (R ∩ EXCLUSIVE_OPTIONS) ≤ 1.
Proof.
  apply (sniff_options_exclusive_across_layers Examples.CM_CODES
           Examples.ACM_CODES Examples.heap_classmethod_gen 0 [0; 1]
           chain_classmethod_gen).
  repeat constructor; by_compute.
Defined.

End SniffChains.

(** ** More on the merge, and the method documenter *)

Module MergeLaws.

Import Sniff Merge MergeFacts Documenter.

Lemma contains_merge_sniffed k sniffed (d : gmap string pyval) :
  contains k (merge_sniffed sniffed d)
  = contains k d || bool_decide (k ∈ sniffed).
Proof.
  unfold contains. rewrite merge_sniffed_lookup.
  destruct (d !! k) as [v |] eqn:Hk.
  - rewrite !bool_decide_eq_true_2 by eauto. reflexivity.
  - rewrite (bool_decide_eq_false_2 (is_Some None)) by (by intros [? ?]).
    simpl. case_decide.
    + rewrite !bool_decide_eq_true_2 by eauto. reflexivity.
    + rewrite !bool_decide_eq_false_2; [reflexivity | done | by intros [? ?]].
Qed.

Lemma merge_sniffed_again sniffed (d : gmap string pyval) :
  merge_sniffed sniffed (merge_sniffed sniffed d) = merge_sniffed sniffed d.
Proof.
  apply map_eq. intros k. rewrite !merge_sniffed_lookup.
  destruct (d !! k); [reflexivity |]. by case_decide.
Qed.

(** X4. Running [update_with_sniffed_options] again on the dictionary it
    left changes nothing. *)
Theorem update_with_sniffed_options_again
    (CM_CODES ACM_CODES : gset nat) (heap : ref → PyObj) (fuel : nat)
    (obj : ref) (option_dict d' : gmap string pyval) :
  update_with_sniffed_options CM_CODES ACM_CODES heap fuel obj option_dict
  = Some d' →
  update_with_sniffed_options CM_CODES ACM_CODES heap fuel obj d' = Some d'.
Proof.
  unfold update_with_sniffed_options.
  destruct (contains "no-auto-options" option_dict) eqn:Hflag.
  - intros [= <-]. by rewrite Hflag.
  - destruct (sniff_options CM_CODES ACM_CODES heap fuel obj) as [sniffed |];
      [| discriminate].
    intros [= <-]. rewrite contains_merge_sniffed, Hflag. simpl.
    case_bool_decide; [reflexivity |]. by rewrite merge_sniffed_again.
Qed.

Lemma update_with_sniffed_options_again_witness :
  update_with_sniffed_options Examples.CM_CODES Examples.ACM_CODES
    Examples.heap_classmethod_gen 2 0
    {[ "for" := PyStr "loop_var"; "abstractmethod" := PyNone;
       "classmethod" := PyNone ]}
  = Some {[ "for" := PyStr "loop_var"; "abstractmethod" := PyNone;
            "classmethod" := PyNone ]}.
Proof.
  apply (update_with_sniffed_options_again Examples.CM_CODES
           Examples.ACM_CODES Examples.heap_classmethod_gen 2 0
           {[ "for" := PyStr "loop_var" ]}).
  by_compute.
Defined.

(** X5. The dictionary the loop of [setdefault] calls leaves does not depend
    on the order in which the set of sniffed tags is gone through, nor on a
    tag coming up more than once. *)
Theorem setdefault_each_any_order (sniffed : gset string) (attrs : list string)
    (option_dict : gmap string pyval) :
  (∀ attr, attr ∈ attrs ↔ attr ∈ sniffed) →
  setdefault_each attrs option_dict = merge_sniffed sniffed option_dict.
Proof.
  intros Hsame. apply map_eq. intros k.
  rewrite setdefault_each_lookup, merge_sniffed_lookup.
  destruct (option_dict !! k); [reflexivity |].
  repeat case_decide; try reflexivity; exfalso; naive_solver.
Qed.

Lemma setdefault_each_any_order_witness :
  setdefault_each ["for"; "classmethod"; "abstractmethod"; "for"]
    {[ "for" := PyStr "loop_var" ]}
  = merge_sniffed {[ "abstractmethod"; "classmethod"; "for" ]}
      {[ "for" := PyStr "loop_var" ]}.
Proof.
  apply (setdefault_each_any_order
           {[ "abstractmethod"; "classmethod"; "for" ]}
           ["for"; "classmethod"; "abstractmethod"; "for"]
           {[ "for" := PyStr "loop_var" ]}).
  intros attr. rewrite !elem_of_cons, elem_of_nil, !elem_of_union,
    !elem_of_singleton. tauto.
Defined.

(** X6. [ExtendedMethodDocumenter.import_object] returns whenever the
    sniffer does, and it lowers [member_order] by one exactly when
    [classmethod] or [staticmethod] is an option given by hand or, without
    [no-auto-options], a sniffed tag; it lowers it by one only, also when
    both are there. *)
Theorem method_import_object_member_order
    (CM_CODES ACM_CODES : gset nat) (heap : ref → PyObj) (fuel : nat)
    (obj : ref) (sniffed : gset string) (options : gmap string pyval)
    (member_order : Z) :
  sniff_options CM_CODES ACM_CODES heap fuel obj = Some sniffed →
  ∃ options',
    update_with_sniffed_options CM_CODES ACM_CODES heap fuel obj options
    = Some options'
    ∧ method_import_object CM_CODES ACM_CODES heap fuel obj options member_order
      = Some (options',
              if contains "classmethod" options
                 || contains "staticmethod" options
                 || negb (contains "no-auto-options" options)
                    && (bool_decide ("classmethod" ∈ sniffed)
                        || bool_decide ("staticmethod" ∈ sniffed))
              then (member_order - 1)%Z else member_order).
Proof.
  intros Hsniff. unfold method_import_object, update_with_sniffed_options.
  rewrite Hsniff.
  destruct (contains "no-auto-options" options).
  - eexists. split; [reflexivity |]. simpl. by rewrite !orb_false_r.
  - eexists. split; [reflexivity |]. rewrite !contains_merge_sniffed. simpl.
    do 2 f_equal.
    destruct (contains "classmethod" options),
      (contains "staticmethod" options),
      (bool_decide ("classmethod" ∈ sniffed)),
      (bool_decide ("staticmethod" ∈ sniffed)); reflexivity.
Qed.

Lemma method_import_object_member_order_witness :
  ∃ options',
    update_with_sniffed_options Examples.CM_CODES Examples.ACM_CODES
      Examples.heap_classmethod_gen 2 0 ∅
    = Some options'
    ∧ method_import_object Examples.CM_CODES Examples.ACM_CODES
        Examples.heap_classmethod_gen 2 0 ∅ 50
      = Some (options',
              if contains "classmethod" ∅
                 || contains "staticmethod" ∅
                 || negb (contains "no-auto-options" ∅)
                    && (bool_decide
                          ("classmethod" ∈ Examples.sniffed_classmethod_gen)
                        || bool_decide
                             ("staticmethod" ∈ Examples.sniffed_classmethod_gen))
              then (50 - 1)%Z else 50%Z).
Proof.
  apply (method_import_object_member_order Examples.CM_CODES
           Examples.ACM_CODES Examples.heap_classmethod_gen 2 0
           Examples.sniffed_classmethod_gen ∅ 50).
  by_compute.
Defined.

(** The member order of the abstract classmethod of the examples. *)
Example method_import_object_classmethod :
  method_import_object Examples.CM_CODES Examples.ACM_CODES
    Examples.heap_classmethod_gen 2 0 ∅ 50
  = Some ({[ "abstractmethod" := PyNone; "classmethod" := PyNone;
             "for" := PyNone ]}, 49%Z).
Proof. by_compute. Qed.

End MergeLaws.

(** ** More on the directives *)

Module RenderLaws.

Import Merge Render MergeFacts RenderFacts Annotations.


Lemma contains_absent k (d : gmap string pyval) :
  d !! k = None → contains k d = false.
Proof.
  intros Hk. unfold contains. rewrite Hk.
  apply bool_decide_eq_false_2. by intros [? ?].
Qed.

Lemma suffix_for_str options signode k :
  str_valued k options →
  suffix_for options signode k = Ok (signode ++ as_suffix k options).
Proof.
  intros Hstr. unfold suffix_for, as_suffix, get_or_empty.
  destruct (options !! k) as [[| s] |] eqn:Hk; simpl.
  - by destruct Hstr.
  - destruct (PyStr.truthy (PyStr.strip s)); [reflexivity |].
    by rewrite app_nil_r.
  - by rewrite app_nil_r.
Qed.

(** X7. With string values for the four valued options, [handle_signature]
    returns what the superclass returned and leaves the nodes the superclass
    made as they are and in their order; in front of them it puts the prefix
    (when it has any word) and then the "@" of a decorator, behind them the
    "as name" of [with] and then of [async-with], each with the name as it
    was given and only when the name is not blank. *)
Theorem handle_signature_nodes (ret_t : Type)
    (super : string → list node → result (ret_t * list node))
    (options : gmap string pyval) (objtype sig : string)
    (signode : list node) (ret : ret_t) (sn : list node) :
  str_valued "for" options → str_valued "async-for" options →
  str_valued "with" options → str_valued "async-with" options →
  super sig signode = Ok (ret, sn) →
  handle_signature ret_t super options objtype sig signode
  = Ok (ret, prefix_nodes options objtype ++ marker_nodes options objtype
             ++ sn ++ as_suffix "with" options
             ++ as_suffix "async-with" options).
Proof.
  intros Hfor Hafor Hwith Hawith Hsuper.
  unfold handle_signature. rewrite Hsuper. cbn [bind].
  rewrite (get_signature_prefix_words options objtype Hfor Hafor).
  cbn [bind]. rewrite (suffix_for_str _ _ "with" Hwith). cbn [bind].
  rewrite (suffix_for_str _ _ "async-with" Hawith). cbn [bind].
  unfold prefix_nodes, marker_nodes.
  destruct (PyStr.truthy (String.concat "" (prefix_words options objtype))),
    (is_decorator options objtype); simpl; by rewrite <- ?app_assoc.
Qed.

Lemma handle_signature_nodes_witness :
  handle_signature unit Examples.super_foo
    {[ "with" := PyStr "bar"; "decorator" := PyNone ]} "method"
    "foo(x, y)" []
  = Ok (tt,
        prefix_nodes {[ "with" := PyStr "bar"; "decorator" := PyNone ]} "method"
        ++ marker_nodes {[ "with" := PyStr "bar"; "decorator" := PyNone ]}
             "method"
        ++ [host_node "foo"; host_node "(x, y)"]
        ++ as_suffix "with" {[ "with" := PyStr "bar"; "decorator" := PyNone ]}
        ++ as_suffix "async-with"
             {[ "with" := PyStr "bar"; "decorator" := PyNone ]}).
Proof.
  apply (handle_signature_nodes unit Examples.super_foo
           {[ "with" := PyStr "bar"; "decorator" := PyNone ]} "method"
           "foo(x, y)" [] tt [host_node "foo"; host_node "(x, y)"]);
    try discriminate.
  reflexivity.
Defined.

(** The nodes of that example, written out. *)
Example handle_signature_with_decorator :
  handle_signature unit Examples.super_foo
    {[ "with" := PyStr "bar"; "decorator" := PyNone ]} "method"
    "foo(x, y)" []
  = Ok (tt, [desc_annotation "with " "with "; desc_addname "@" "@";
             host_node "foo"; host_node "(x, y)";
             desc_annotation (NBSP +:+ "as bar") (NBSP +:+ "as bar")]).
Proof. reflexivity. Qed.

(** X8. A directive with none of the options of the extension, declared as
    [function] or [method], gives what the superclass gives, a raised
    exception included. *)
Theorem handle_signature_plain (ret_t : Type)
    (super : string → list node → result (ret_t * list node))
    (options : gmap string pyval) (objtype sig : string)
    (signode : list node) :
  (∀ k, k ∈ Documenter.extended_method_option_spec → options !! k = None) →
  objtype = "function" ∨ objtype = "method" →
  handle_signature ret_t super options objtype sig signode
  = super sig signode.
Proof.
  intros Hnone Hobj.
  assert (∀ k, k ∈ Documenter.extended_method_option_spec →
               contains k options = false) as Hc.
  { intros k Hk. apply contains_absent. by apply Hnone. }
  assert (_get_signature_prefix options objtype = Ok "") as Hprefix.
  { unfold _get_signature_prefix, prefix_for.
    rewrite !Hc by by_compute. by destruct Hobj as [-> | ->]. }
  assert (is_decorator options objtype = false) as Hdec.
  { unfold is_decorator. rewrite Hc by by_compute.
    by destruct Hobj as [-> | ->]. }
  unfold handle_signature.
  destruct (super sig signode) as [[ret sn] | e]; [| reflexivity].
  cbn [bind]. rewrite Hdec, Hprefix. cbn [bind PyStr.truthy].
  rewrite suffix_for_absent by (apply Hnone; by_compute). cbn [bind].
  rewrite suffix_for_absent by (apply Hnone; by_compute). reflexivity.
Qed.

Lemma handle_signature_plain_witness :
  handle_signature unit Examples.super_foo {[ "module" := PyStr "m" ]}
    "function" "foo(x, y)" []
  = Examples.super_foo "foo(x, y)" [].
Proof.
  apply (handle_signature_plain unit Examples.super_foo
           {[ "module" := PyStr "m" ]} "function" "foo(x, y)" []).
  - intros k Hk. apply lookup_singleton_ne. intros <-.
    revert Hk. by_compute.
  - by left.
Defined.











(** X10. [_get_signature_prefix] raises [AttributeError] exactly when [for]
    or [async-for] is there with the value [None]; with any other options it
    returns a prefix. *)
Theorem get_signature_prefix_raises (options : gmap string pyval)
    (objtype : string) :
  _get_signature_prefix options objtype = Raise AttributeError
  ↔ options !! "for" = Some PyNone ∨ options !! "async-for" = Some PyNone.
Proof.
  split.
  - intros Hraise.
    destruct (decide (options !! "for" = Some PyNone)) as [| Hfor];
      [by left |].
    destruct (decide (options !! "async-for" = Some PyNone)) as [| Hafor];
      [by right |].
    by rewrite (get_signature_prefix_words options objtype Hfor Hafor)
      in Hraise.
  - intros Hnone. unfold _get_signature_prefix.
    destruct (decide (options !! "for" = Some PyNone)) as [Hfor | Hfor].
    + unfold prefix_for at 1, get_or_empty. rewrite Hfor.
      by rewrite (proj2 (contains_true "for" options)) by (by rewrite Hfor).
    + destruct Hnone as [| Hafor]; [contradiction |].
      rewrite (prefix_for_str _ _ "for" "for" Hfor). cbn [bind].
      unfold prefix_for, get_or_empty. rewrite Hafor.
      by rewrite (proj2 (contains_true "async-for" options))
        by (by rewrite Hafor).
Qed.

End RenderLaws.

(** ** More on the rendering hook *)

Module FilterLaws.

Import Filter FilterFacts.

Lemma filter_field_list_keeps_others fields :
  filter (λ f, is_trio_field f = false) (filter_field_list fields)
  = filter (λ f, is_trio_field f = false) fields.
Proof.
  induction fields as [| f fields IH]; simpl; [reflexivity |].
  destruct (is_trio_field f) eqn:Hf.
  - rewrite filter_cons_False; [reflexivity | by rewrite Hf].
  - rewrite !filter_cons_True by done. by rewrite IH.
Qed.

Lemma filter_field_list_length fields :
  length fields ≤ S (length (filter_field_list fields)).
Proof.
  induction fields as [| f fields IH]; simpl; [lia |].
  destruct (is_trio_field f); simpl; lia.
Qed.

Lemma filter_field_list_sublist fields :
  sublist (filter_field_list fields) fields.
Proof.
  induction fields as [| f fields IH]; simpl; [constructor |].
  destruct (is_trio_field f).
  - by apply sublist_cons.
  - by apply sublist_skip.
Qed.

(** The reserved fields that are left are one fewer. *)
Lemma filter_field_list_reserved fields :
  length (filter (λ f, is_trio_field f = true) (filter_field_list fields))
  = pred (length (filter (λ f, is_trio_field f = true) fields)).
Proof.
  induction fields as [| f fields IH]; simpl; [reflexivity |].
  destruct (is_trio_field f) eqn:Hf.
  - by rewrite filter_cons_True by done.
  - rewrite !filter_cons_False by (by rewrite Hf). exact IH.
Qed.

(** X11. Whatever the domain and the content, the hook leaves every node
    that is no field list as it is, and from a field list it takes at most
    one field and never a field without the reserved name: the fields that
    stay are in their old order, and all the fields of other names are among
    them.  Outside the domain [py] nothing changes at all. *)
Theorem filter_trio_fields_keeps_others (domain objtype : string)
    (content : list node) :
  Forall2
    (λ n n',
       match n with
       | field_list fields =>
           ∃ fields', n' = field_list fields'
                      ∧ sublist fields' fields
                      ∧ length fields ≤ S (length fields')
                      ∧ filter (λ f, is_trio_field f = false) fields'
                        = filter (λ f, is_trio_field f = false) fields
       | other_node _ => n' = n
       end)
    content (filter_trio_fields domain objtype content)
  ∧ (domain ≠ "py" → filter_trio_fields domain objtype content = content).
Proof.
  unfold filter_trio_fields. split.
  - destruct (negb (String.eqb domain "py")).
    + induction content as [| [fields | text] content IH];
        [constructor | constructor; [| assumption] | by constructor].
      exists fields. repeat split; [reflexivity | lia].
    + induction content as [| [fields | text] content IH]; simpl;
        [constructor | constructor; [| assumption] | by constructor].
      exists (filter_field_list fields). split; [reflexivity |].
      split; [apply filter_field_list_sublist |].
      split; [apply filter_field_list_length |].
      apply filter_field_list_keeps_others.
  - intros Hdom. apply String.eqb_neq in Hdom. by rewrite Hdom.
Qed.

(** X12. In the domain [py], when no field list of the content has more
    than one field of the reserved name, none is left after the hook. *)
Theorem filter_trio_fields_at_most_one (objtype : string) (content : list node) :
  Forall
    (λ n, match n with
          | field_list fields =>
              length (filter (λ f, is_trio_field f = true) fields) ≤ 1
          | other_node _ => True
          end) content →
  Forall
    (λ n, match n with
          | field_list fields => Forall (λ f, is_trio_field f = false) fields
          | other_node _ => True
          end) (filter_trio_fields "py" objtype content).
Proof.
  unfold filter_trio_fields. simpl.
  induction 1 as [| [fields | text] content Hn _ IH]; simpl;
    [constructor | constructor; [| assumption] | by constructor].
  pose proof (filter_field_list_reserved fields) as Hleft.
  assert (filter (λ f, is_trio_field f = true) (filter_field_list fields) = [])
    as Hnil by (apply length_zero_iff_nil; lia).
  apply Forall_forall. intros f Hf.
  destruct (is_trio_field f) eqn:Htrio; [| reflexivity].
  assert (f ∈ filter (λ f, is_trio_field f = true) (filter_field_list fields))
    as Hin by (by apply list_elem_of_filter).
  rewrite Hnil in Hin. by apply elem_of_nil in Hin.
Qed.

Lemma filter_trio_fields_at_most_one_witness :
  Forall
    (λ n, match n with
          | field_list fields => Forall (λ f, is_trio_field f = false) fields
          | other_node _ => True
          end)
    (filter_trio_fields "py" "function"
       [other_node "Some words.";
        field_list [mkField "param x" "the input"; mkField "trio with" "result";
                    mkField "returns" "the output"]]).
Proof.
  apply (filter_trio_fields_at_most_one "function"
           [other_node "Some words.";
            field_list [mkField "param x" "the input";
                        mkField "trio with" "result";
                        mkField "returns" "the output"]]).
  repeat constructor.
Defined.

(** The content of that example after the hook. *)
Example filter_trio_fields_one_field :
  filter_trio_fields "py" "function"
    [other_node "Some words.";
     field_list [mkField "param x" "the input"; mkField "trio with" "result";
                 mkField "returns" "the output"]]
  = [other_node "Some words.";
     field_list [mkField "param x" "the input"; mkField "returns" "the output"]].
Proof. reflexivity. Qed.

End FilterLaws.

(** ** More on the docstring splitter *)

Module SplitLaws.

Import Split SplitFacts.

Section Splitter.

Context (prepare_docstring : string → list string).
Context (re : string → option nat).




(** X14. Inside a paragraph that has started with prose nothing is taken:
    from a state with the flag set, lines that are not blank are all kept,
    reserved fields among them, and the mapping and the flag stay as they
    are. *)
Theorem run_inside_paragraph (st : state) (ls : list string) :
  in_other_element st = true →
  Forall (λ line, is_blank line = false) ls →
  run re st ls = mkState true (metadata st) (lines st ++ ls).
Proof.
  intros Hflag Hls. revert st Hflag.
  induction Hls as [| line ls Hline _ IH]; intros st Hflag.
  - simpl. rewrite app_nil_r. destruct st. simpl in Hflag. by subst.
  - rewrite run_cons.
    assert (step re st line = mkState true (metadata st) (lines st ++ [line]))
      as ->.
    { unfold step. unfold is_blank in Hline. rewrite Hline, Hflag. simpl.
      by destruct (re line). }
    rewrite IH by reflexivity. simpl. by rewrite <- app_assoc.
Qed.

End Splitter.


Lemma run_inside_paragraph_witness :
  run Host.field_marker_match (mkState true ∅ ["Some words."])
    [":trio with: result"; "more words"]
  = mkState true (metadata (mkState true ∅ ["Some words."]))
      (lines (mkState true ∅ ["Some words."])
       ++ [":trio with: result"; "more words"]).
Proof.
  apply (run_inside_paragraph Host.field_marker_match
           (mkState true ∅ ["Some words."])
           [":trio with: result"; "more words"]).
  - reflexivity.
  - repeat constructor.
Defined.

End SplitLaws.

(** ** The splitter and the hook agree on the reserved names *)

Module ReservedNames.

Import RenderFacts.

Lemma rev_app_append s acc :
  String.rev_app s acc = String.rev_app s "" +:+ acc.
Proof.
  revert acc. induction s as [| c s IH]; intros acc; [reflexivity |].
  simpl. rewrite (IH (String c acc)), (IH (String c "")).
  by rewrite append_assoc.
Qed.

Lemma rev_cons c s : String.rev (String c s) = String.rev s +:+ String c "".
Proof. unfold String.rev. simpl. apply rev_app_append. Qed.

Lemma rev_snoc s c : String.rev (s +:+ String c "") = String c (String.rev s).
Proof.
  induction s as [| a s IH]; [reflexivity |].
  change (String a s +:+ String c "") with (String a (s +:+ String c "")).
  by rewrite !rev_cons, IH.
Qed.

Lemma lstrip_snoc a c :
  PyStr.lstrip (a +:+ String c "")
  = match PyStr.lstrip a with
    | EmptyString => PyStr.lstrip (String c "")
    | String _ _ => PyStr.lstrip a +:+ String c ""
    end.
Proof.
  induction a as [| x a IH]; [reflexivity |].
  change (String x a +:+ String c "") with (String x (a +:+ String c "")).
  cbn [PyStr.lstrip]. destruct (PyStr.isspace x); [exact IH | reflexivity].
Qed.

(** [rstrip] from the front of the text. *)
Lemma rstrip_cons c s :
  PyStr.rstrip (String c s)
  = match PyStr.rstrip s with
    | EmptyString => if PyStr.isspace c then EmptyString else String c ""
    | String _ _ => String c (PyStr.rstrip s)
    end.
Proof.
  unfold PyStr.rstrip. rewrite rev_cons, lstrip_snoc.
  destruct (PyStr.lstrip (String.rev s)) as [| y t] eqn:Hl.
  - cbn [PyStr.lstrip]. by destruct (PyStr.isspace c).
  - rewrite rev_snoc. rewrite rev_cons.
    destruct (String.rev t) as [| z u]; reflexivity.
Qed.

Lemma lstrip_nonspace c s :
  PyStr.isspace c = false → PyStr.lstrip (String c s) = String c s.
Proof. intros Hc. cbn [PyStr.lstrip]. by rewrite Hc. Qed.

(** X15. Every field name the splitter takes for a reserved one (it starts
    with "trio ") passes the test of the rendering hook, which strips the
    name first and also takes the bare name "trio": a field the splitter
    turns into an option is one the hook would remove. *)
Theorem reserved_name_is_filtered (name body : string) :
  PyStr.startswith "trio " name = true →
  Filter.is_trio_field (Filter.mkField name body) = true.
Proof.
  unfold PyStr.startswith. intros Hstart.
  destruct name as [| c1 [| c2 [| c3 [| c4 [| c5 r]]]]];
    simpl in Hstart; try discriminate;
    repeat match type of Hstart with
           | (if ?d then _ else _) = _ =>
               destruct d as [<- |]; [| discriminate]
           end; try discriminate.
  unfold Filter.is_trio_field, PyStr.strip. cbn [Filter.field_name].
  rewrite lstrip_nonspace by reflexivity.
  rewrite !rstrip_cons.
  destruct (PyStr.rstrip r); reflexivity.
Qed.

Lemma reserved_name_is_filtered_witness :
  Filter.is_trio_field (Filter.mkField "trio with  " "result") = true.
Proof.
  apply (reserved_name_is_filtered "trio with  " "result"). reflexivity.
Defined.

(** The hook's test is the wider one: it takes the bare name, which the
    splitter keeps as a field of the text. *)
Example bare_trio_field :
  Filter.is_trio_field (Filter.mkField "trio" "") = true
  ∧ Host.separate_metadata ":trio: words"
    = (":trio: words" +:+ PyStr.NEWLINE, ∅).
Proof. split; reflexivity. Qed.

End ReservedNames.

(** ** The option lines the documenters pass on *)

Module DocumenterFacts.

Import Sniff Merge MergeFacts Documenter.




Section Passthrough.

Context (prepare_docstring : string → list string).
Context (re : string → option nat).




Lemma pass_option_elem options spec :
  ∀ added line,
    line ∈ fold_left (pass_option options) spec added
    ↔ line ∈ added
      ∨ ∃ option v, option ∈ spec ∧ options !! option = Some v
                    ∧ line = option_line option v.
Proof.
  induction spec as [| option spec IH]; intros added line; simpl.
  - split; [by left |]. intros [H | (o & v & Ho & _)]; [done |].
    by apply elem_of_nil in Ho.
  - rewrite IH. unfold pass_option, add_line.
    destruct (options !! option) as [v |] eqn:Hv.
    + rewrite elem_of_app, list_elem_of_singleton. split.
      * intros [[H | ->] | (o & w & Ho & Hw & ->)].
        -- by left.
        -- right. exists option, v. split; [by left | done].
        -- right. exists o, w. split; [by right | done].
      * intros [H | (o & w & [-> | Ho]%elem_of_cons & Hw & ->)].
        -- by left; left.
        -- left; right. congruence.
        -- right. by exists o, w.
    + split.
      * intros [H | (o & w & Ho & Hw & ->)]; [by left |].
        right. exists o, w. split; [by right | done].
      * intros [H | (o & w & [-> | Ho]%elem_of_cons & Hw & ->)].
        -- by left.
        -- congruence.
        -- right. by exists o, w.
Qed.

Lemma pass_metadata_elem available items :
  ∀ added line,
    line ∈ fold_left (pass_metadata available) items added
    ↔ line ∈ added
      ∨ ∃ n v, (n, v) ∈ items ∧ n ∈ available ∧ line = metadata_line n v.
Proof.
  induction items as [| [n v] items IH]; intros added line; simpl.
  - split; [by left |]. intros [H | (n & v & Hin & _)]; [done |].
    by apply elem_of_nil in Hin.
  - rewrite IH. unfold is_available, add_line. case_bool_decide as Hav; simpl.
    + rewrite elem_of_app, list_elem_of_singleton. split.
      * intros [[H | ->] | (n' & v' & Hin & Ha & ->)].
        -- by left.
        -- right. exists n, v. split; [by left | done].
        -- right. exists n', v'. split; [by right | done].
      * intros [H | (n' & v' & [[= -> ->] | Hin]%elem_of_cons & Ha & ->)].
        -- by left; left.
        -- by left; right.
        -- right. by exists n', v'.
    + split.
      * intros [H | (n' & v' & Hin & Ha & ->)]; [by left |].
        right. exists n', v'. split; [by right | done].
      * intros [H | (n' & v' & [[= -> ->] | Hin]%elem_of_cons & Ha & ->)].
        -- by left.
        -- contradiction.
        -- right. by exists n', v'.
Qed.



(** X17. From the sniffer to the directive: when [no-auto-options] is not
    given, a sniffed tag of [option_spec] that the user did not give is
    passed on as the flag line of its name, and one the user gave with a name
    is passed on with that name. *)
Theorem sniffed_option_is_passed
    (CM_CODES ACM_CODES : gset nat) (heap : ref → PyObj) (fuel : nat)
    (obj : ref) (sniffed : gset string) (options : gmap string pyval)
    (objtype : string) (doc : list (list string)) (option_spec : list string)
    (tag : string) :
  sniff_options CM_CODES ACM_CODES heap fuel obj = Some sniffed →
  options !! "no-auto-options" = None →
  tag ∈ sniffed → tag ∈ option_spec →
  ∃ options',
    update_with_sniffed_options CM_CODES ACM_CODES heap fuel obj options
    = Some options'
    ∧ (options !! tag = None →
       "   :" +:+ tag +:+ ":"
       ∈ passthrough_option_lines prepare_docstring re options' objtype doc
           option_spec)
    ∧ (∀ name, options !! tag = Some (PyStr name) →
               "   :" +:+ tag +:+ ": " +:+ name
               ∈ passthrough_option_lines prepare_docstring re options' objtype
                   doc option_spec).
Proof.
  intros Hsniff Hflag Htag Hspec.
  exists (merge_sniffed sniffed options). split.
  - unfold update_with_sniffed_options. rewrite Hsniff.
    unfold contains. rewrite Hflag.
    by rewrite bool_decide_eq_false_2 by (by intros [? ?]).
  - assert (∀ v line,
              merge_sniffed sniffed options !! tag = Some v →
              line = option_line tag v →
              line ∈ passthrough_option_lines prepare_docstring re
                       (merge_sniffed sniffed options) objtype doc
                       option_spec) as Hpass.
    { intros v line Hv ->. unfold passthrough_option_lines.
      assert (option_line tag v
              ∈ fold_left (pass_option (merge_sniffed sniffed options))
                  option_spec []) as Hin.
      { apply pass_option_elem. right. by exists tag, v. }
      destruct doc as [| part doc]; [exact Hin |].
      destruct (separate_metadata_items _ _ _) as [docstring items].
      apply pass_metadata_elem. by left. }
    split.
    + intros Hnone. apply (Hpass PyNone); [| reflexivity].
      rewrite merge_sniffed_lookup, Hnone. by rewrite decide_True.
    + intros name Hname. apply (Hpass (PyStr name)); [| reflexivity].
      by rewrite merge_sniffed_lookup, Hname.
Qed.

End Passthrough.

Lemma sniffed_option_is_passed_witness :
  ∃ options',
    update_with_sniffed_options Examples.CM_CODES Examples.ACM_CODES
      Examples.heap_classmethod_gen 2 0 ∅
    = Some options'
    ∧ ((∅ : gmap string pyval) !! "for" = None →
       "   :" +:+ "for" +:+ ":"
       ∈ passthrough_option_lines Host.prepare_docstring
           Host.field_marker_match options' "method" []
           extended_method_option_spec)
    ∧ (∀ name, (∅ : gmap string pyval) !! "for" = Some (PyStr name) →
               "   :" +:+ "for" +:+ ": " +:+ name
               ∈ passthrough_option_lines Host.prepare_docstring
                   Host.field_marker_match options' "method" []
                   extended_method_option_spec).
Proof.
  apply (sniffed_option_is_passed Host.prepare_docstring
           Host.field_marker_match Examples.CM_CODES Examples.ACM_CODES
           Examples.heap_classmethod_gen 2 0 Examples.sniffed_classmethod_gen
           ∅ "method" [] extended_method_option_spec "for").
  - by_compute.
  - reflexivity.
  - by_compute.
  - by_compute.
Defined.

(** The lines for the abstract classmethod of the examples, with a docstring
    that declares a name for the loop variable and a tag that is in no
    table. *)
Example passthrough_option_lines_classmethod_gen :
  passthrough_option_lines Host.prepare_docstring Host.field_marker_match
    {[ "abstractmethod" := PyNone; "classmethod" := PyNone; "for" := PyNone ]}
    "method"
    [["Yield the items."; ""; ":trio for: item"; ":trio bogus: 1"; ""]]
    extended_method_option_spec
  = ["   :for:"; "   :abstractmethod:"; "   :classmethod:"; "   :for: item"].
Proof. reflexivity. Qed.

End DocumenterFacts.

(** ** Valued options with a blank value *)

Module BlankNames.

Import Merge Render MergeFacts RenderFacts Annotations RenderLaws.

Lemma bound_name_blank options k s :
  options !! k = Some (PyStr s) → PyStr.strip s = "" →
  bound_name k options = "...".
Proof.
  intros Hk Hblank. unfold bound_name, get_or_empty. rewrite Hk. simpl.
  by rewrite Hblank.
Qed.

Lemma as_suffix_blank options k s :
  options !! k = Some (PyStr s) → PyStr.strip s = "" →
  as_suffix k options = [].
Proof. intros Hk Hblank. unfold as_suffix. by rewrite Hk, Hblank. Qed.

(** Without [for] and [async-for] no word of the prefix has an ellipsis. *)
Lemma prefix_without_for_no_ellipsis options objtype :
  options !! "for" = None → options !! "async-for" = None →
  PyStr.has_substring "..." (String.concat "" (prefix_words options objtype))
  = false.
Proof.
  intros Hfor Hafor. unfold prefix_words.
  rewrite (contains_absent "for" options Hfor).
  rewrite (contains_absent "async-for" options Hafor).
  destruct (contains "abstractmethod" options),
    (contains "staticmethod" options || String.eqb objtype "staticmethod"),
    (contains "classmethod" options || String.eqb objtype "classmethod"),
    (contains "with" options), (contains "async-with" options),
    (contains "async" options); reflexivity.
Qed.

(** C7, amended. Let the option [k] be there with a blank string for its
    value, the four valued options holding strings.  The prefix is then
    exactly the words of the tags put together in their order, and in it the
    word of [k] is "for ... in " for [for] and "async for ... in " for
    [async-for], with the ellipsis where the name would stand, while for
    [with] and [async-with] it is the bare word "with " or "async with ": no
    ellipsis comes with it (with neither kind of [for] among the options the
    whole prefix has none).  Behind the nodes of the superclass
    [handle_signature] puts the "as name" annotations of [with] and
    [async-with] only, and the one for a blank [k] is not there. *)
Theorem blank_bound_name (options : gmap string pyval)
    (objtype k s : string) :
  options !! k = Some (PyStr s) →
  PyStr.strip s = "" →
  str_valued "for" options → str_valued "async-for" options →
  str_valued "with" options → str_valued "async-with" options →
  _get_signature_prefix options objtype
  = Ok (String.concat "" (prefix_words options objtype))
  ∧ (k = "for" → nth 5 (prefix_words options objtype) "" = "for ... in ")
  ∧ (k = "async-for" →
     nth 6 (prefix_words options objtype) "" = "async for ... in ")
  ∧ (k = "with" →
     nth 3 (prefix_words options objtype) "" = "with "
     ∧ as_suffix "with" options = [])
  ∧ (k = "async-with" →
     nth 4 (prefix_words options objtype) "" = "async with "
     ∧ as_suffix "async-with" options = [])
  ∧ (k = "with" ∨ k = "async-with" →
     options !! "for" = None → options !! "async-for" = None →
     PyStr.has_substring "..."
       (String.concat "" (prefix_words options objtype)) = false)
  ∧ (∀ (ret_t : Type) super sig signode (ret : ret_t) sn,
       super sig signode = Ok (ret, sn) →
       handle_signature ret_t super options objtype sig signode
       = Ok (ret, prefix_nodes options objtype ++ marker_nodes options objtype
                  ++ sn ++ as_suffix "with" options
                  ++ as_suffix "async-with" options)).
Proof.
  intros Hk Hblank Hfor Hafor Hwith Hawith.
  assert (contains k options = true) as Hc by (apply contains_true; eauto).
  pose proof (bound_name_blank options k s Hk Hblank) as Hname.
  pose proof (as_suffix_blank options k s Hk Hblank) as Hsuffix.
  pose proof (get_signature_prefix_words options objtype Hfor Hafor) as Hprefix.
  split; [exact Hprefix |].
  split; [intros ->; cbn [nth prefix_words]; by rewrite Hc, Hname |].
  split; [intros ->; cbn [nth prefix_words]; by rewrite Hc, Hname |].
  split; [intros ->; cbn [nth prefix_words]; by rewrite Hc |].
  split; [intros ->; cbn [nth prefix_words]; by rewrite Hc |].
  split; [intros _; apply prefix_without_for_no_ellipsis |].
  intros ret_t super sig signode ret sn Hsuper.
  unfold handle_signature. rewrite Hsuper. cbn [bind].
  rewrite Hprefix. cbn [bind].
  rewrite (suffix_for_str _ _ "with" Hwith). cbn [bind].
  rewrite (suffix_for_str _ _ "async-with" Hawith). cbn [bind].
  unfold prefix_nodes, marker_nodes.
  destruct (PyStr.truthy (String.concat "" (prefix_words options objtype))),
    (is_decorator options objtype); simpl; by rewrite <- ?app_assoc.
Qed.

Lemma blank_bound_name_witness :
  _get_signature_prefix Examples.options_blank_with "function"
  = Ok (String.concat "" (prefix_words Examples.options_blank_with "function"))
  ∧ ("with" = "for" →
     nth 5 (prefix_words Examples.options_blank_with "function") ""
     = "for ... in ")
  ∧ ("with" = "async-for" →
     nth 6 (prefix_words Examples.options_blank_with "function") ""
     = "async for ... in ")
  ∧ ("with" = "with" →
     nth 3 (prefix_words Examples.options_blank_with "function") "" = "with "
     ∧ as_suffix "with" Examples.options_blank_with = [])
  ∧ ("with" = "async-with" →
     nth 4 (prefix_words Examples.options_blank_with "function") ""
     = "async with "
     ∧ as_suffix "async-with" Examples.options_blank_with = [])
  ∧ ("with" = "with" ∨ "with" = "async-with" →
     Examples.options_blank_with !! "for" = None →
     Examples.options_blank_with !! "async-for" = None →
     PyStr.has_substring "..."
       (String.concat ""
          (prefix_words Examples.options_blank_with "function")) = false)
  ∧ (∀ (ret_t : Type) super sig signode (ret : ret_t) sn,
       super sig signode = Ok (ret, sn) →
       handle_signature ret_t super Examples.options_blank_with "function"
         sig signode
       = Ok (ret, prefix_nodes Examples.options_blank_with "function"
                  ++ marker_nodes Examples.options_blank_with "function"
                  ++ sn ++ as_suffix "with" Examples.options_blank_with
                  ++ as_suffix "async-with" Examples.options_blank_with)).
Proof.
  apply (blank_bound_name Examples.options_blank_with "function" "with" "");
    try reflexivity; discriminate.
Defined.

(** The same with a blank [for]: the word has the ellipsis. *)
Example prefix_words_blank_for :
  nth 5 (prefix_words {[ "for" := PyStr "  " ]} "function") "" = "for ... in "
  ∧ _get_signature_prefix {[ "for" := PyStr "  " ]} "function"
    = Ok "for ... in ".
Proof. split; reflexivity. Qed.

End BlankNames.
